(** * analysis_app/views.py: the dataset-description handler

    A shallow embedding of [get_dataset_info], [analyze_with_gemini] and
    [dataset_description] of [tool_APIs/analysis_app/views.py], and the
    properties of the handler: validation, the fallback narrative, the
    basic metrics and the assembly of the response.

    Conventions.
    - A Python [str] is a [string]; an [ascii] stands for a code point
      below 256.
    - A Python [int] (and a numpy [int64] count, which cannot overflow for
      a table that fits in memory) is a [Z].
    - A Python [float] is a binary64 number [m * 2^e]; arithmetic on it is
      the exact operation followed by rounding to nearest, ties to even.
    - A Python [dict] is an association list in insertion order, without
      repeated keys.
    - pandas, the Gemini client, [json.loads] and the clock are the
      environment of the handler: a record [Env] of functions. *)

From Stdlib Require Import ZArith List String Ascii Bool Lia Permutation.
Import ListNotations.

Local Open Scope string_scope.
Local Open Scope Z_scope.

(* ================================================================== *)
(** ** Python strings *)
(* ================================================================== *)

Module PyStr.

(** The double quote and the line feed, which string literals of this
    file do not hold. *)
Definition dq : string := String (ascii_of_nat 34) EmptyString.
Definition nl : string := String (ascii_of_nat 10) EmptyString.

Fixpoint rev_append (s acc : string) : string :=
  match s with
  | EmptyString => acc
  | String c s' => rev_append s' (String c acc)
  end.

Definition rev (s : string) : string := rev_append s EmptyString.

(** [s.startswith(p)] *)
Definition startswith (p s : string) : bool := String.prefix p s.

(** [s.endswith(p)] *)
Definition endswith (p s : string) : bool := String.prefix (rev p) (rev s).

(** [s[:n]] *)
Fixpoint take (n : nat) (s : string) : string :=
  match n, s with
  | S n', String c s' => String c (take n' s')
  | _, _ => EmptyString
  end.

(** [sub in s] *)
Fixpoint contains (sub s : string) : bool :=
  String.prefix sub s ||
  match s with
  | EmptyString => false
  | String _ s' => contains sub s'
  end.

(** [str.isspace] on one code point below 256: the ASCII separators and
    controls 9..13 and 28..32, NEL (133) and the no-break space (160). *)
Definition isspace (c : ascii) : bool :=
  let n := nat_of_ascii c in
  ((9 <=? n)%nat && (n <=? 13)%nat) || ((28 <=? n)%nat && (n <=? 32)%nat)
  || (n =? 133)%nat || (n =? 160)%nat.

Fixpoint lstrip (s : string) : string :=
  match s with
  | EmptyString => EmptyString
  | String c s' => if isspace c then lstrip s' else s
  end.

(** [s.strip()] *)
Definition strip (s : string) : string := rev (lstrip (rev (lstrip s))).

(** [s.replace(old, '')] for a non-empty [old]: the occurrences of [old]
    are removed from left to right, without overlap.  [skip] counts the
    characters of a matched occurrence that remain to be dropped. *)
Fixpoint remove_from (old : string) (skip : nat) (s : string) : string :=
  match s with
  | EmptyString => EmptyString
  | String c s' =>
      match skip with
      | S k => remove_from old k s'
      | O => if String.prefix old s
             then remove_from old (Nat.pred (String.length old)) s'
             else String c (remove_from old O s')
      end
  end.

Definition remove (old s : string) : string := remove_from old O s.

(** [str.lower] on one code point below 256: A..Z, and the Latin-1
    capitals 192..222 without the multiplication sign 215. *)
Definition lower_char (c : ascii) : ascii :=
  let n := nat_of_ascii c in
  if ((65 <=? n)%nat && (n <=? 90)%nat)
     || ((192 <=? n)%nat && (n <=? 222)%nat && negb (n =? 215)%nat)
  then ascii_of_nat (n + 32) else c.

Fixpoint lower (s : string) : string :=
  match s with
  | EmptyString => EmptyString
  | String c s' => String (lower_char c) (lower s')
  end.

(** [sep.join(l)] *)
Definition join (sep : string) (l : list string) : string :=
  String.concat sep l.

Definition is_digit (c : ascii) : bool :=
  let n := nat_of_ascii c in (48 <=? n)%nat && (n <=? 57)%nat.

Fixpoint all_digits (s : string) : bool :=
  match s with
  | EmptyString => true
  | String c s' => is_digit c && all_digits s'
  end.

Definition digit_char (d : Z) : ascii := ascii_of_nat (48 + Z.to_nat d).

(** The decimal digits of a natural number, most significant first;
    [fuel] bounds the number of digits. *)
Fixpoint digits_from (fuel : nat) (n : Z) (acc : string) : string :=
  match fuel with
  | O => acc
  | S fuel' =>
      let acc' := String (digit_char (n mod 10)) acc in
      if n <? 10 then acc' else digits_from fuel' (n / 10) acc'
  end.

Definition str_nat (n : Z) : string :=
  digits_from (S (Z.to_nat (Z.log2 n))) n EmptyString.

(** [str(n)], [f"{n}"] *)
Definition str_int (n : Z) : string :=
  if n <? 0 then "-" ++ str_nat (- n) else str_nat n.

(** The number that a string of decimal digits writes, after the digits
    that wrote [acc]. *)
Fixpoint digits_value (acc : Z) (s : string) : Z :=
  match s with
  | EmptyString => acc
  | String c s' => digits_value (10 * acc + (Z.of_nat (nat_of_ascii c) - 48)) s'
  end.

(** Commas between groups of three digits, on the reversed digits. *)
Fixpoint group3 (k : nat) (s : string) : string :=
  match s with
  | EmptyString => EmptyString
  | String c s' =>
      match k with
      | O => String "," (String c (group3 2 s'))
      | S k' => String c (group3 k' s')
      end
  end.

Definition commas (digits : string) : string := rev (group3 3 (rev digits)).

(** [f"{n:,}"] *)
Definition format_comma (n : Z) : string :=
  if n <? 0 then "-" ++ commas (str_nat (- n)) else commas (str_nat n).

End PyStr.

(* ================================================================== *)
(** ** Python floats (binary64) *)
(* ================================================================== *)

Module F64.

(** A finite binary64 number [mant * 2^expo].  The numbers of this
    program are counts below [2^53], their quotients and small multiples
    of them: they stay in the normal range, so that the exponent bounds
    of the format play no role. *)
Record t : Type := mk { mant : Z; expo : Z }.

(** The number as a fraction [(numerator, denominator)]. *)
Definition to_frac (x : t) : Z * Z :=
  if 0 <=? expo x then (mant x * 2 ^ expo x, 1)
  else (mant x, 2 ^ (- expo x)).

(** [n / d] rounded to an integer, ties to the even one ([0 <= n], [0 < d]). *)
Definition round_half_even (n d : Z) : Z :=
  let q := n / d in
  let r := n mod d in
  if 2 * r <? d then q
  else if d <? 2 * r then q + 1
  else if Z.even q then q else q + 1.

(** Rounding of the positive fraction [p / q] to 53 significant bits,
    to nearest, ties to even. *)
Definition round_pos (p q : Z) : t :=
  let d := Z.log2 p - Z.log2 q in
  let k := if p * 2 ^ Z.max 0 (- d) <? q * 2 ^ Z.max 0 d then d - 1 else d in
  let e := k - 52 in
  mk (round_half_even (p * 2 ^ Z.max 0 (- e)) (q * 2 ^ Z.max 0 e)) e.

(** Rounding of a fraction [p / q] with [0 < q]. *)
Definition round (p q : Z) : t :=
  if p =? 0 then mk 0 0
  else if p <? 0 then
    let r := round_pos (- p) q in mk (- mant r) (expo r)
  else round_pos p q.

(** [float(n)] *)
Definition of_int (n : Z) : t := round n 1.

(** [x * y] *)
Definition mul (x y : t) : t :=
  let '(a, b) := to_frac x in
  let '(c, d) := to_frac y in
  round (a * c) (b * d).

(** [x / y]; [None] stands for the division by zero. *)
Definition div (x y : t) : option t :=
  let '(a, b) := to_frac x in
  let '(c, d) := to_frac y in
  if c =? 0 then None
  else if c <? 0 then Some (round (- (a * d)) (b * - c))
  else Some (round (a * d) (b * c)).

(** [x < y] *)
Definition ltb (x y : t) : bool :=
  let '(a, b) := to_frac x in
  let '(c, d) := to_frac y in
  a * d <? c * b.

(** The literal [0.05]: the binary64 number nearest to 1/20. *)
Definition c_0_05 : t := round 1 20.

(** [numpy.rint]: the nearest integer, ties to even ([0 <= x]). *)
Definition rint (x : t) : Z :=
  let '(a, b) := to_frac x in round_half_even a b.

(** Two decimal digits, with a leading zero. *)
Definition pad2 (n : Z) : string :=
  String (PyStr.digit_char (n / 10))
    (String (PyStr.digit_char (n mod 10)) EmptyString).

(** [f"{x:.2f}"] for [0 <= x]: the exact value of [x] rounded to
    hundredths, ties to even. *)
Definition format_2f (x : t) : string :=
  let '(a, b) := to_frac x in
  let h := round_half_even (a * 100) b in
  PyStr.str_nat (h / 100) ++ "." ++ pad2 (h mod 100).

End F64.

(* ================================================================== *)
(** ** Python values and dictionaries *)
(* ================================================================== *)

(** A Python [float]: a finite binary64 number, an infinity or a NaN. *)
Inductive pyfloat : Type :=
| Finite (x : F64.t)
| Infinite (negative : bool)
| NaN.

(** The values that [json.loads] returns and that a response carries.  A
    [PDict] lists its items in insertion order, each key once. *)
#[warnings="-register-all"]
Inductive pyval : Type :=
| PNone
| PBool (b : bool)
| PInt (n : Z)
| PFloat (x : pyfloat)
| PStr (s : string)
| PList (l : list pyval)
| PDict (d : list (string * pyval)).

(** [type(v).__name__] *)
Definition type_name (v : pyval) : string :=
  match v with
  | PNone => "NoneType"
  | PBool _ => "bool"
  | PInt _ => "int"
  | PFloat _ => "float"
  | PStr _ => "str"
  | PList _ => "list"
  | PDict _ => "dict"
  end.

Definition is_dict (v : pyval) : bool :=
  match v with PDict _ => true | _ => false end.

Module PyDict.
Section Dict.

Context {V : Type}.

(** A [dict] with [str] keys, in insertion order. *)
Definition t : Type := list (string * V).

(** [d.get(k)] *)
Fixpoint get (k : string) (d : t) : option V :=
  match d with
  | [] => None
  | (k', v) :: d' => if String.eqb k k' then Some v else get k d'
  end.

(** [d[k] = v]: a key that is present keeps its place. *)
Fixpoint set (k : string) (v : V) (d : t) : t :=
  match d with
  | [] => [(k, v)]
  | (k', v') :: d' =>
      if String.eqb k k' then (k, v) :: d' else (k', v') :: set k v d'
  end.

(** [dict(items)]: the items are inserted from left to right. *)
Definition of_items (items : list (string * V)) : t :=
  fold_left (fun d kv => set (fst kv) (snd kv) d) items [].

Definition keys (d : t) : list string := map fst d.
Definition values (d : t) : list V := map snd d.

(** The truth value of a dict: it is not empty. *)
Definition truthy (d : t) : bool :=
  match d with [] => false | _ :: _ => true end.

End Dict.
Arguments t : clear implicits.
End PyDict.

(** [sum] of a list of integers. *)
Definition sum_Z (l : list Z) : Z := fold_right Z.add 0 l.

(* ================================================================== *)
(** ** pandas tables *)
(* ================================================================== *)

(** The column types that [pd.read_csv] infers (and [datetime64], which
    it produces on request only). *)
Inductive dtype : Type :=
| Int64 | UInt64 | Float64 | Bool | Object | Datetime64.

(** [str(dtype)] *)
Definition dtype_str (t : dtype) : string :=
  match t with
  | Int64 => "int64"
  | UInt64 => "uint64"
  | Float64 => "float64"
  | Bool => "bool"
  | Object => "object"
  | Datetime64 => "datetime64[ns]"
  end.

(** The types that [select_dtypes(include=['number'])] keeps. *)
Definition is_number (t : dtype) : bool :=
  match t with
  | Int64 | UInt64 | Float64 => true
  | _ => false
  end.

(** The types that [select_dtypes(include=['object'])] keeps. *)
Definition is_object (t : dtype) : bool :=
  match t with
  | Object => true
  | _ => false
  end.

Inductive cell : Type :=
| CInt (n : Z)
| CFloat (x : pyfloat)
| CBool (b : bool)
| CStr (s : string)
| CNone.

(** [pd.isnull] on one cell: [None] and NaN are missing. *)
Definition cell_isnull (c : cell) : bool :=
  match c with
  | CNone => true
  | CFloat NaN => true
  | _ => false
  end.

Record Column : Type := mkColumn {
  col_name : string;
  col_dtype : dtype;
  col_cells : list cell
}.

(** A [DataFrame]: the length of its index and its columns. *)
Record DataFrame : Type := mkDataFrame {
  nrows : nat;
  columns : list Column
}.

(** What [pd.read_csv] guarantees of its result: every column has one cell
    per row, and the column labels are distinct (repeated labels of the
    header are renamed [x.1], [x.2], ...). *)
Record wf_df (df : DataFrame) : Prop := mk_wf_df {
  wf_cells : Forall (fun c => List.length (col_cells c) = nrows df) (columns df);
  wf_names : NoDup (map col_name (columns df))
}.

(** A [Series] of integers: its labels and values, in order. *)
Definition Series : Type := list (string * Z).

Module Pandas.

(** [len(df)] *)
Definition len (df : DataFrame) : Z := Z.of_nat (nrows df).

(** [len(df.columns)] *)
Definition len_columns (df : DataFrame) : Z :=
  Z.of_nat (List.length (columns df)).

(** [df.empty]: one of the two axes has length 0. *)
Definition empty (df : DataFrame) : bool :=
  (len df =? 0) || (len_columns df =? 0).

(** [df.columns.tolist()] *)
Definition columns_tolist (df : DataFrame) : list string :=
  map col_name (columns df).

(** [df.select_dtypes(include=['number']).columns.tolist()] *)
Definition select_number (df : DataFrame) : list string :=
  map col_name (filter (fun c => is_number (col_dtype c)) (columns df)).

(** [df.select_dtypes(include=['object']).columns.tolist()] *)
Definition select_object (df : DataFrame) : list string :=
  map col_name (filter (fun c => is_object (col_dtype c)) (columns df)).

(** [df.dtypes.astype(str)] *)
Definition dtypes_str (df : DataFrame) : list (string * string) :=
  map (fun c => (col_name c, dtype_str (col_dtype c))) (columns df).

Definition count_null (c : Column) : Z :=
  Z.of_nat (List.length (filter cell_isnull (col_cells c))).

(** [df.isnull().sum()]: the number of missing cells of each column. *)
Definition isnull_sum (df : DataFrame) : Series :=
  map (fun c => (col_name c, count_null c)) (columns df).

(** [s.sum()] *)
Definition series_sum (s : Series) : Z := sum_Z (map snd s).

(** [s[s > 0]] *)
Definition series_positive (s : Series) : Series :=
  filter (fun kv => 0 <? snd kv) s.

(** [s.to_dict()] *)
Definition to_dict {V : Type} (s : list (string * V)) : PyDict.t V :=
  PyDict.of_items s.

End Pandas.

(* ================================================================== *)
(** ** Exceptions and output *)
(* ================================================================== *)

(** An exception, known to the handler through [str(e)] only. *)
Definition exn : Type := string.

(** What a run does besides returning: calls of the remote model and
    lines written to the standard output. *)
Inductive event : Type :=
| EvGenerate (prompt : string)
| EvPrint (text : string)
| EvPrintData (text : string) (data : pyval).

(** A computation that returns or raises, and leaves a trace. *)
Definition M (A : Type) : Type := (exn + A) * list event.

Definition ret {A : Type} (a : A) : M A := (inr a, []).

Definition bind {A B : Type} (m : M A) (f : A -> M B) : M B :=
  match m with
  | (inl e, t) => (inl e, t)
  | (inr a, t) => let '(r, t') := f a in (r, (t ++ t')%list)
  end.

(** [try: m / except Exception as e: h e] *)
Definition try_except {A : Type} (m : M A) (h : exn -> M A) : M A :=
  match m with
  | (inl e, t) => let '(r, t') := h e in (r, (t ++ t')%list)
  | (inr a, t) => (inr a, t)
  end.

Definition emit (ev : event) : M unit := (inr tt, [ev]).

(** A call without output. *)
Definition lift {A : Type} (r : exn + A) : M A := (r, []).

Declare Scope py_scope.
Delimit Scope py_scope with py.
Notation "x <- m ;; k" := (bind m (fun x => k))
  (at level 61, m at next level, right associativity) : py_scope.
Notation "m ;;; k" := (bind m (fun _ => k))
  (at level 61, right associativity) : py_scope.
Local Open Scope py_scope.

(* ================================================================== *)
(** ** The environment of the handler *)
(* ================================================================== *)

Record UploadedFile : Type := mkFile {
  name : string;
  content : string
}.

Inductive http_method : Type := GET | POST.

(** A request that [api_view(['GET', 'POST'])] lets through.  [FILES] are
    the uploaded files with their field names, in the order of the form. *)
Record Request : Type := mkRequest {
  method : http_method;
  FILES : list (string * UploadedFile)
}.

(** [Response(data, status=status_code)] *)
Record Response : Type := mkResponse {
  data : pyval;
  status_code : Z
}.

Definition HTTP_200_OK : Z := 200.
Definition HTTP_400_BAD_REQUEST : Z := 400.
Definition HTTP_500_INTERNAL_SERVER_ERROR : Z := 500.

Record Env : Type := mkEnv {
  (** [pd.read_csv(csv_file)] *)
  read_csv : UploadedFile -> exn + DataFrame;
  (** [df.head().to_string()] *)
  head_to_string : DataFrame -> string;
  (** [df.describe().to_string()] *)
  describe_to_string : DataFrame -> string;
  (** the text that [df.info(buf=buffer)] writes *)
  info_text : DataFrame -> string;
  (** [df.memory_usage(deep=True).sum()], in bytes *)
  memory_usage_deep : DataFrame -> Z;
  (** [genai.GenerativeModel('gemini-2.0-flash-lite').generate_content(prompt).text] *)
  generate_content : string -> exn + string;
  (** [json.loads] *)
  json_loads : string -> exn + pyval;
  (** [datetime.now().isoformat()] *)
  now_isoformat : string
}.

(** [request.FILES[key]]: the last file uploaded under [key]. *)
Fixpoint files_getitem (key : string) (files : list (string * UploadedFile))
  : option UploadedFile :=
  match files with
  | [] => None
  | (k, f) :: files' =>
      match files_getitem key files' with
      | Some f' => Some f'
      | None => if String.eqb key k then Some f else None
      end
  end.

(** [key in request.FILES] *)
Definition files_contains (key : string) (files : list (string * UploadedFile))
  : bool :=
  existsb (fun kf => String.eqb key (fst kf)) files.

(* ================================================================== *)
(** ** [get_dataset_info] *)
(* ================================================================== *)

Record DatasetInfo : Type := mkInfo {
  head : string;
  describe : string;
  info : string
}.

Definition get_dataset_info (env : Env) (df : DataFrame) : DatasetInfo :=
  let head_str := head_to_string env df in
  let describe_str := describe_to_string env df in
  let info_str := info_text env df in
  mkInfo head_str describe_str info_str.

(* ================================================================== *)
(** ** [analyze_with_gemini] *)
(* ================================================================== *)

Module Prompt.
Import PyStr.

Definition to_head : string :=
  join nl
    [ EmptyString;
      "You are a data analyst. Analyze the following dataset information and provide a comprehensive description.";
      EmptyString;
      "Dataset Head (first 5 rows):";
      EmptyString ].

Definition to_describe : string :=
  join nl
    [ EmptyString;
      EmptyString;
      "Dataset Description (statistical summary):";
      EmptyString ].

Definition to_info : string :=
  join nl
    [ EmptyString;
      EmptyString;
      "Dataset Info (column types and non-null counts):";
      EmptyString ].

Definition to_end : string :=
  join nl
    [ EmptyString;
      EmptyString;
      "Please provide a detailed analysis in the following JSON format:";
      "{";
      "    " ++ dq ++ "dataset_description" ++ dq ++ ": " ++ dq ++ "A comprehensive 2-3 paragraph description of the dataset, including what type of data it contains, the main features, and any notable patterns or characteristics you observe." ++ dq ++ ", what does it represent you must include that";
      "    " ++ dq ++ "key_insights" ++ dq ++ ": [";
      "        " ++ dq ++ "List 3-5 key insights about the data" ++ dq;
      "    ],";
      "    " ++ dq ++ "data_quality" ++ dq ++ ": {";
      "        " ++ dq ++ "completeness" ++ dq ++ ": " ++ dq ++ "Assessment of missing values" ++ dq ++ ",";
      "        " ++ dq ++ "potential_issues" ++ dq ++ ": [" ++ dq ++ "List any potential data quality issues" ++ dq ++ "]";
      "    },";
      "    " ++ dq ++ "recommendations" ++ dq ++ ": [";
      "        " ++ dq ++ "List 2-3 recommendations for analysis or data cleaning" ++ dq;
      "    ]";
      "}";
      EmptyString;
      "Return ONLY the JSON object, no additional text or markdown.";
      EmptyString ].

End Prompt.

(** The f-string of the prompt. *)
Definition build_prompt (dataset_info : DatasetInfo) : string :=
  Prompt.to_head ++ head dataset_info
  ++ Prompt.to_describe ++ describe dataset_info
  ++ Prompt.to_info ++ info dataset_info
  ++ Prompt.to_end.

(** The removal of the markdown code fences around a reply. *)
Definition strip_fences (response_text : string) : string :=
  if PyStr.startswith "```json" response_text then
    PyStr.strip (PyStr.remove "```" (PyStr.remove "```json" response_text))
  else if PyStr.startswith "```" response_text then
    PyStr.strip (PyStr.remove "```" response_text)
  else response_text.

(** The body of the [try]: the remote call and the parsing of its reply. *)
Definition ai_attempt (env : Env) (dataset_info : DatasetInfo) : M pyval :=
  let prompt := build_prompt dataset_info in
  emit (EvGenerate prompt) ;;;
  text <- lift (generate_content env prompt) ;;
  let response_text := PyStr.strip text in
  let response_text := strip_fences response_text in
  analysis <- lift (json_loads env response_text) ;;
  ret analysis.

(** [x / y] on floats.  A zero divisor is reported as an error: numpy
    itself warns and yields [inf] or [nan], which the formatting of the
    percentage would then print. *)
Definition truediv (x y : F64.t) : exn + F64.t :=
  match F64.div x y with
  | Some q => inr q
  | None => inl "division by zero"
  end.

(** [df.isnull().sum().sum()] *)
Definition total_null (df : DataFrame) : Z :=
  Pandas.series_sum (Pandas.isnull_sum df).

(** ['minimal' if df.isnull().sum().sum() < len(df) * 0.05 else 'significant'] *)
Definition missing_severity (df : DataFrame) : string :=
  if F64.ltb (F64.of_int (total_null df))
             (F64.mul (F64.of_int (Pandas.len df)) F64.c_0_05)
  then "minimal" else "significant".

(** [df.isnull().sum().sum() / (len(df) * len(df.columns)) * 100] *)
Definition missing_percent (df : DataFrame) : exn + F64.t :=
  match truediv (F64.of_int (total_null df))
                (F64.of_int (Pandas.len df * Pandas.len_columns df)) with
  | inl e => inl e
  | inr q => inr (F64.mul q (F64.of_int 100))
  end.

(** [', '.join(cols[:3])] followed by [', ...'] when there are more. *)
Definition first_three (cols : list string) : string :=
  PyStr.join ", " (firstn 3 cols)
  ++ (if (3 <? Z.of_nat (List.length cols)) then ", ..." else "").

Definition api_status (error_msg : string) : string :=
  if PyStr.contains "429" error_msg
     || PyStr.contains "quota" (PyStr.lower error_msg)
  then "Rate limit exceeded. Using fallback analysis."
  else "API unavailable: " ++ PyStr.take 100 error_msg
       ++ ". Using fallback analysis.".

Definition recommendations : list string :=
  [ "Examine distribution of numerical features for outliers";
    "Check categorical variables for consistency";
    "Consider feature engineering based on domain knowledge" ].

Definition issue_line (kv : string * Z) : string :=
  fst kv ++ ": " ++ PyStr.str_int (snd kv) ++ " missing".

(** The body of the [except]: the narrative computed from the table. *)
Definition fallback (df : DataFrame) (error_msg : string) : exn + pyval :=
  let numeric_cols := Pandas.select_number df in
  let categorical_cols := Pandas.select_object df in
  let missing_summary := Pandas.isnull_sum df in
  let missing_cols := Pandas.to_dict (Pandas.series_positive missing_summary) in
  let api_status := api_status error_msg in
  let description :=
    "This dataset contains " ++ PyStr.str_int (Pandas.len df)
    ++ " records across " ++ PyStr.str_int (Pandas.len_columns df)
    ++ " features. "
    ++ "It includes " ++ PyStr.str_int (Z.of_nat (List.length numeric_cols))
    ++ " numerical columns (" ++ first_three numeric_cols ++ ") "
    ++ "and " ++ PyStr.str_int (Z.of_nat (List.length categorical_cols))
    ++ " categorical columns (" ++ first_three categorical_cols ++ "). "
    ++ "The dataset shows " ++ missing_severity df
    ++ " missing data patterns. "
    ++ "Note: " ++ api_status in
  match missing_percent df with
  | inl e => inl e
  | inr percent =>
      inr (PDict
        [ ("dataset_description", PStr description);
          ("key_insights", PList
            [ PStr ("Total records: " ++ PyStr.format_comma (Pandas.len df));
              PStr ("Total features: " ++ PyStr.str_int (Pandas.len_columns df));
              PStr ("Numerical features: "
                    ++ PyStr.str_int (Z.of_nat (List.length numeric_cols)));
              PStr ("Categorical features: "
                    ++ PyStr.str_int (Z.of_nat (List.length categorical_cols)));
              PStr ("Missing values: " ++ PyStr.format_comma (total_null df)
                    ++ " (" ++ F64.format_2f percent ++ "%)") ]);
          ("data_quality", PDict
            [ ("completeness", PStr
                (if PyDict.truthy missing_cols
                 then "Missing values found in "
                      ++ PyStr.str_int (Z.of_nat (List.length missing_cols))
                      ++ " columns"
                 else "No missing values detected"));
              ("potential_issues", PList
                (if PyDict.truthy missing_cols
                 then map (fun kv => PStr (issue_line kv)) (firstn 5 missing_cols)
                 else [PStr "Data appears complete"])) ]);
          ("recommendations", PList (map PStr recommendations)) ])
  end.

Definition analyze_with_gemini (env : Env) (dataset_info : DatasetInfo)
  (df : DataFrame) : M pyval :=
  try_except (ai_attempt env dataset_info)
    (fun e =>
       let error_msg := e in
       emit (EvPrint ("Gemini API Error: " ++ error_msg)) ;;;
       lift (fallback df error_msg)).

(* ================================================================== *)
(** ** [dataset_description] *)
(* ================================================================== *)

(** The dict [metrics], with its keys as fields. *)
Record Metrics : Type := mkMetrics {
  total_rows : Z;
  total_columns : Z;
  column_names : list string;
  column_types : PyDict.t string;
  missing_values : PyDict.t Z;
  total_missing : Z;
  memory_usage_mb : F64.t;
  numeric_columns : list string;
  categorical_columns : list string
}.

(** [round(x, 2)] on a numpy float: scale, round to the nearest integer,
    scale back. *)
Definition np_round2 (x : F64.t) : exn + F64.t :=
  truediv (F64.of_int (F64.rint (F64.mul x (F64.of_int 100)))) (F64.of_int 100).

Definition compute_metrics (env : Env) (df : DataFrame) : exn + Metrics :=
  match truediv (F64.of_int (memory_usage_deep env df)) (F64.of_int (1024 ^ 2)) with
  | inl e => inl e
  | inr mb =>
      match np_round2 mb with
      | inl e => inl e
      | inr mb2 =>
          inr {| total_rows := Pandas.len df;
                 total_columns := Pandas.len_columns df;
                 column_names := Pandas.columns_tolist df;
                 column_types := Pandas.to_dict (Pandas.dtypes_str df);
                 missing_values := Pandas.to_dict (Pandas.isnull_sum df);
                 total_missing := total_null df;
                 memory_usage_mb := mb2;
                 numeric_columns := Pandas.select_number df;
                 categorical_columns := Pandas.select_object df |}
      end
  end.

Definition PStrs (l : list string) : pyval := PList (map PStr l).

Definition metrics_data (m : Metrics) : pyval :=
  PDict
    [ ("total_rows", PInt (total_rows m));
      ("total_columns", PInt (total_columns m));
      ("column_names", PStrs (column_names m));
      ("column_types", PDict (map (fun kv => (fst kv, PStr (snd kv))) (column_types m)));
      ("missing_values", PDict (map (fun kv => (fst kv, PInt (snd kv))) (missing_values m)));
      ("total_missing", PInt (total_missing m));
      ("memory_usage_mb", PFloat (Finite (memory_usage_mb m)));
      ("numeric_columns", PStrs (numeric_columns m));
      ("categorical_columns", PStrs (categorical_columns m)) ].

(** [d.get(key, default)] on a dict. *)
Definition get_default (items : PyDict.t pyval) (key : string)
  (default : pyval) : pyval :=
  match PyDict.get key items with
  | Some v => v
  | None => default
  end.

(** [d.get(key, default)] on a value; one that is not a dict has no [get]. *)
Definition py_get (d : pyval) (key : string) (default : pyval) : exn + pyval :=
  match d with
  | PDict items => inr (get_default items key default)
  | _ => inl ("'" ++ type_name d ++ "' object has no attribute 'get'")
  end.

(** [d[key]], when [d] is a dict that holds [key]. *)
Definition py_item (key : string) (d : pyval) : option pyval :=
  match d with
  | PDict items => PyDict.get key items
  | _ => None
  end.

Definition error_response (message : string) (status : Z) : Response :=
  mkResponse (PDict [("error", PStr message)]) status.

Definition help_data : pyval :=
  PDict
    [ ("message", PStr "Upload a CSV file to get dataset description");
      ("instructions", PStr ("Use POST method with form-data and attach a CSV file with key "
                             ++ PyStr.dq ++ "file" ++ PyStr.dq));
      ("endpoint", PStr "/api/analysis/dataset-description/");
      ("method", PStr "POST");
      ("content_type", PStr "multipart/form-data");
      ("example_curl", PStr ("curl -X POST http://localhost:8000/api/analysis/dataset-description/ -F "
                             ++ PyStr.dq ++ "file=@your_file.csv" ++ PyStr.dq)) ].

Definition response_data (env : Env) (csv_file : UploadedFile)
  (description insights quality recs : pyval) (metrics : Metrics) : pyval :=
  PDict
    [ ("status", PStr "success");
      ("timestamp", PStr (now_isoformat env));
      ("filename", PStr (name csv_file));
      ("dataset_description", description);
      ("key_insights", insights);
      ("data_quality", quality);
      ("recommendations", recs);
      ("metrics", metrics_data metrics) ].

(** The POST branch once the upload is validated: the analysis, the
    metrics and the assembly of the response. *)
Definition describe_table (env : Env) (csv_file : UploadedFile)
  (df : DataFrame) : M Response :=
  let dataset_info := get_dataset_info env df in
  gemini_analysis <- analyze_with_gemini env dataset_info df ;;
  metrics <- lift (compute_metrics env df) ;;
  description <- lift (py_get gemini_analysis "dataset_description" (PStr "")) ;;
  insights <- lift (py_get gemini_analysis "key_insights" (PList [])) ;;
  quality <- lift (py_get gemini_analysis "data_quality" (PDict [])) ;;
  recs <- lift (py_get gemini_analysis "recommendations" (PList [])) ;;
  let response_data :=
    response_data env csv_file description insights quality recs metrics in
  emit (EvPrintData ("Check Point the response data is:" ++ PyStr.nl)
          response_data) ;;;
  ret (mkResponse response_data HTTP_200_OK).

(** The body of the outer [try] of the POST branch. *)
Definition post_body (env : Env) (request : Request) : M Response :=
  if negb (files_contains "file" (FILES request)) then
    ret (error_response "No file uploaded. Please upload a CSV file."
           HTTP_400_BAD_REQUEST)
  else
    csv_file <- lift (match files_getitem "file" (FILES request) with
                      | Some f => inr f
                      | None => inl "'file'"
                      end) ;;
    if negb (PyStr.endswith ".csv" (name csv_file)) then
      ret (error_response "Invalid file type. Please upload a CSV file."
             HTTP_400_BAD_REQUEST)
    else
      match read_csv env csv_file with
      | inl e =>
          ret (error_response ("Error reading CSV file: " ++ e)
                 HTTP_400_BAD_REQUEST)
      | inr df =>
          if Pandas.empty df then
            ret (error_response "The uploaded CSV file is empty."
                   HTTP_400_BAD_REQUEST)
          else describe_table env csv_file df
      end.

Definition dataset_description (env : Env) (request : Request)
  : Response * list event :=
  match method request with
  | GET => (mkResponse help_data HTTP_200_OK, [])
  | POST =>
      match post_body env request with
      | (inr response, t) => (response, t)
      | (inl e, t) =>
          (error_response ("An error occurred: " ++ e)
             HTTP_500_INTERNAL_SERVER_ERROR, t)
      end
  end.

(** A request as the view receives it.  The body is parsed when
    [request.FILES] is first read, at line 161, inside the outer [try]:
    the read returns the uploaded files, or raises when the body is
    malformed or of a media type without a parser.  A GET request is
    answered before any read. *)
Record Incoming : Type := mkIncoming {
  incoming_method : http_method;
  incoming_FILES : exn + list (string * UploadedFile)
}.

(** [dataset_description] on a request whose body is still to be parsed:
    an exception of the first read of [request.FILES] is one of the outer
    [try]. *)
Definition dataset_description_view (env : Env) (incoming : Incoming)
  : Response * list event :=
  match incoming_method incoming with
  | GET => (mkResponse help_data HTTP_200_OK, [])
  | POST =>
      match incoming_FILES incoming with
      | inr files => dataset_description env (mkRequest POST files)
      | inl e =>
          (error_response ("An error occurred: " ++ e)
             HTTP_500_INTERNAL_SERVER_ERROR, [])
      end
  end.

(* ================================================================== *)
(** ** Vocabulary of the properties *)
(* ================================================================== *)

(** The binary exponent [k] of [p / q]: [q * 2^k <= p < q * 2^(k+1)]. *)
Definition exponent_of (p q k : Z) : Prop :=
  q * 2 ^ Z.max 0 k <= p * 2 ^ Z.max 0 (- k)
  /\ p * 2 ^ Z.max 0 (- (k + 1)) < q * 2 ^ Z.max 0 (k + 1).

(** A number written with exactly two decimal places. *)
Definition two_decimals (s : string) : Prop :=
  exists ip fp,
    s = ip ++ "." ++ fp
    /\ ip <> "" /\ PyStr.all_digits ip = true
    /\ String.length fp = 2%nat /\ PyStr.all_digits fp = true.

(** A column that [select_dtypes] puts among the numeric or among the
    categorical ones. *)
Definition numeric_or_text (c : Column) : Prop :=
  is_number (col_dtype c) = true \/ is_object (col_dtype c) = true.

(** The four ways in which an upload is refused. *)
Inductive validation_failure (env : Env) (request : Request) : Prop :=
| MissingFile :
    files_contains "file" (FILES request) = false ->
    validation_failure env request
| InvalidFileType (f : UploadedFile) :
    files_getitem "file" (FILES request) = Some f ->
    PyStr.endswith ".csv" (name f) = false ->
    validation_failure env request
| ParseError (f : UploadedFile) (e : exn) :
    files_getitem "file" (FILES request) = Some f ->
    PyStr.endswith ".csv" (name f) = true ->
    read_csv env f = inl e ->
    validation_failure env request
| EmptyTable (f : UploadedFile) (df : DataFrame) :
    files_getitem "file" (FILES request) = Some f ->
    PyStr.endswith ".csv" (name f) = true ->
    read_csv env f = inr df ->
    Pandas.empty df = true ->
    validation_failure env request.

(* ================================================================== *)
(** ** Concrete tables, uploads and environments *)
(* ================================================================== *)

Module Demo.

(** The table of [a,b / 1,x / 2,y / 3,z]. *)
Definition table : DataFrame :=
  mkDataFrame 3
    [ mkColumn "a" Int64 [CInt 1; CInt 2; CInt 3];
      mkColumn "b" Object [CStr "x"; CStr "y"; CStr "z"] ].

(** A table of 20 rows and 3 columns with 2 missing cells out of 60. *)
Definition sparse : DataFrame :=
  mkDataFrame 20
    [ mkColumn "id" Int64 (repeat (CInt 7) 20);
      mkColumn "city" Object (CNone :: repeat (CStr "Riyadh") 19);
      mkColumn "score" Float64
        (CFloat NaN :: repeat (CFloat (Finite (F64.of_int 3))) 19) ].

Definition csv_text : string :=
  "a,b" ++ PyStr.nl ++ "1,x" ++ PyStr.nl ++ "2,y" ++ PyStr.nl ++ "3,z" ++ PyStr.nl.

Definition upload : UploadedFile := mkFile "data.csv" csv_text.
Definition upload_txt : UploadedFile := mkFile "data.txt" csv_text.

Definition request : Request := mkRequest POST [("file", upload)].
Definition request_txt : Request := mkRequest POST [("file", upload_txt)].

(** An environment whose parser knows [csv_text], and whose remote model
    and JSON parser are given. *)
Definition env (reply : string -> exn + string)
  (loads : string -> exn + pyval) : Env :=
  {| read_csv := fun f =>
       if String.eqb (content f) csv_text then inr table
       else inl "No columns to parse from file";
     head_to_string := fun _ => "   a  b";
     describe_to_string := fun _ => "         a";
     info_text := fun _ => "RangeIndex: 3 entries, 0 to 2";
     memory_usage_deep := fun _ => 438;
     generate_content := reply;
     json_loads := loads;
     now_isoformat := "2025-01-01T12:00:00.000000" |}.

(** The remote model is down. *)
Definition env_down : Env :=
  env (fun _ => inl "503 Service Unavailable")
      (fun _ => inl "Expecting value: line 1 column 1 (char 0)").

(** The remote model replies with a fenced JSON array. *)
Definition env_array : Env :=
  env (fun _ => inr "```json
[]
```")
      (fun s => if String.eqb s "[]" then inr (PList [])
                else inl "Expecting value: line 1 column 1 (char 0)").

(** The remote model replies with an object that holds one of the fields. *)
Definition partial_reply : string :=
  "{" ++ PyStr.dq ++ "key_insights" ++ PyStr.dq ++ ": ["
  ++ PyStr.dq ++ "Three rows" ++ PyStr.dq ++ "]}".

Definition env_partial : Env :=
  env (fun _ => inr partial_reply)
      (fun s => if String.eqb s partial_reply
                then inr (PDict [("key_insights", PList [PStr "Three rows"])])
                else inl "Expecting value: line 1 column 1 (char 0)").

End Demo.

(* ================================================================== *)
(** ** Vocabulary of the further properties *)
(* ================================================================== *)

(** The upload of [request] passes the four validations, as the file [f]
    read as the table [df]. *)
Definition valid_upload (env : Env) (request : Request) (f : UploadedFile)
  (df : DataFrame) : Prop :=
  files_getitem "file" (FILES request) = Some f
  /\ PyStr.endswith ".csv" (name f) = true
  /\ read_csv env f = inr df
  /\ Pandas.empty df = false.

Definition is_generate (ev : event) : bool :=
  match ev with EvGenerate _ => true | _ => false end.

(** The number of calls of the remote model in a trace. *)
Definition count_generate (t : list event) : nat :=
  List.length (filter is_generate t).

(** Two tables have the same outline: as many rows, and columns with the
    same labels, the same types and the same cells missing. *)
Definition same_outline (df1 df2 : DataFrame) : Prop :=
  nrows df1 = nrows df2
  /\ Forall2
       (fun c1 c2 =>
          col_name c1 = col_name c2
          /\ col_dtype c1 = col_dtype c2
          /\ map cell_isnull (col_cells c1) = map cell_isnull (col_cells c2))
       (columns df1) (columns df2).

(** The string holds no backtick. *)
Fixpoint backtick_free (s : string) : bool :=
  match s with
  | EmptyString => true
  | String c s' => negb (Ascii.eqb c "`") && backtick_free s'
  end.

(** The columns that have a missing cell. *)
Definition columns_with_missing (df : DataFrame) : list Column :=
  filter (fun c => 0 <? Pandas.count_null c) (columns df).

(** The float [x] lies between the integers [lo] and [hi]. *)
Definition float_between (lo hi : Z) (x : F64.t) : Prop :=
  let '(a, d) := F64.to_frac x in 0 < d /\ lo * d <= a <= hi * d.

(** The table of [Demo.table] with other values in its cells. *)
Definition table_other_values : DataFrame :=
  mkDataFrame 3
    [ mkColumn "a" Int64 [CInt 40; CInt 50; CInt 60];
      mkColumn "b" Object [CStr "p"; CStr "q"; CStr "r"] ].

(* ================================================================== *)
(** * Properties *)
(* ================================================================== *)

(** ** Floats: what rounding guarantees *)

Section Rounding.
Import F64.

(** The rounded quotient is within one half of the quotient. *)
Lemma round_half_even_near (n d : Z) :
  0 < d ->
  2 * (round_half_even n d * d) <= 2 * n + d
  /\ 2 * n <= 2 * (round_half_even n d * d) + d.
Proof.
  intros Hd. unfold round_half_even.
  pose proof (Z.div_mod n d ltac:(lia)) as Hdm.
  pose proof (Z.mod_pos_bound n d Hd) as Hr.
  destruct (Z.ltb_spec (2 * (n mod d)) d); [nia|].
  destruct (Z.ltb_spec d (2 * (n mod d))); [nia|].
  destruct (Z.even (n / d)); nia.
Qed.

(** [q * 2^(d-1) <= p] for [d = log2 p - log2 q]. *)
Lemma log2_diff_lower (p q : Z) :
  0 < p -> 0 < q ->
  let d := Z.log2 p - Z.log2 q in
  q * 2 ^ Z.max 0 (d - 1) <= p * 2 ^ Z.max 0 (- (d - 1)).
Proof.
  intros Hp Hq d.
  destruct (Z.log2_spec p Hp) as [Hp1 _].
  destruct (Z.log2_spec q Hq) as [_ Hq2].
  pose proof (Z.log2_nonneg p) as Hlp.
  pose proof (Z.log2_nonneg q) as Hlq.
  destruct (Z_le_gt_dec 1 d) as [Hd|Hd].
  - rewrite (Z.max_r 0 (d - 1)), (Z.max_l 0 (- (d - 1))) by lia.
    assert (E : 2 ^ Z.log2 p = 2 ^ Z.succ (Z.log2 q) * 2 ^ (d - 1)).
    { rewrite <- Z.pow_add_r by lia. f_equal. unfold d. lia. }
    assert (0 < 2 ^ (d - 1)) by (apply Z.pow_pos_nonneg; lia).
    simpl (2 ^ 0). nia.
  - rewrite (Z.max_l 0 (d - 1)), (Z.max_r 0 (- (d - 1))) by lia.
    assert (E : 2 ^ Z.succ (Z.log2 q) = 2 ^ Z.log2 p * 2 ^ (- (d - 1))).
    { rewrite <- Z.pow_add_r by lia. f_equal. unfold d. lia. }
    assert (0 < 2 ^ (- (d - 1))) by (apply Z.pow_pos_nonneg; lia).
    simpl (2 ^ 0). nia.
Qed.

(** [p < q * 2^(d+1)] for [d = log2 p - log2 q]. *)
Lemma log2_diff_upper (p q : Z) :
  0 < p -> 0 < q ->
  let d := Z.log2 p - Z.log2 q in
  p * 2 ^ Z.max 0 (- (d + 1)) < q * 2 ^ Z.max 0 (d + 1).
Proof.
  intros Hp Hq d.
  destruct (Z.log2_spec p Hp) as [_ Hp2].
  destruct (Z.log2_spec q Hq) as [Hq1 _].
  pose proof (Z.log2_nonneg p) as Hlp.
  pose proof (Z.log2_nonneg q) as Hlq.
  destruct (Z_le_gt_dec 0 (d + 1)) as [Hd|Hd].
  - rewrite (Z.max_r 0 (d + 1)), (Z.max_l 0 (- (d + 1))) by lia.
    assert (E : 2 ^ Z.succ (Z.log2 p) = 2 ^ Z.log2 q * 2 ^ (d + 1)).
    { rewrite <- Z.pow_add_r by lia. f_equal. unfold d. lia. }
    assert (0 < 2 ^ (d + 1)) by (apply Z.pow_pos_nonneg; lia).
    simpl (2 ^ 0). nia.
  - rewrite (Z.max_l 0 (d + 1)), (Z.max_r 0 (- (d + 1))) by lia.
    assert (E : 2 ^ Z.log2 q = 2 ^ Z.succ (Z.log2 p) * 2 ^ (- (d + 1))).
    { rewrite <- Z.pow_add_r by lia. f_equal. unfold d. lia. }
    assert (0 < 2 ^ (- (d + 1))) by (apply Z.pow_pos_nonneg; lia).
    simpl (2 ^ 0). nia.
Qed.

Lemma round_pos_exponent (p q : Z) :
  0 < p -> 0 < q -> exponent_of p q (expo (round_pos p q) + 52).
Proof.
  intros Hp Hq. unfold round_pos. cbn [expo].
  set (d := Z.log2 p - Z.log2 q).
  pose proof (log2_diff_lower p q Hp Hq) as HL. fold d in HL.
  pose proof (log2_diff_upper p q Hp Hq) as HU. fold d in HU.
  cbv zeta in HL, HU.
  destruct (Z.ltb_spec (p * 2 ^ Z.max 0 (- d)) (q * 2 ^ Z.max 0 d)) as [Hc|Hc].
  - replace (d - 1 - 52 + 52) with (d - 1) by lia. split; [exact HL|].
    replace (d - 1 + 1) with d by lia. exact Hc.
  - replace (d - 52 + 52) with d by lia. split; [exact Hc | exact HU].
Qed.

(** The scaled quotient has 53 bits. *)
Lemma exponent_of_scaled (p q k : Z) :
  0 < p -> 0 < q -> exponent_of p q k ->
  let e := k - 52 in
  2 ^ 52 * (q * 2 ^ Z.max 0 e) <= p * 2 ^ Z.max 0 (- e)
  /\ p * 2 ^ Z.max 0 (- e) < 2 ^ 53 * (q * 2 ^ Z.max 0 e).
Proof.
  intros Hp Hq [HL HU] e. unfold e.
  destruct (Z_le_gt_dec 52 k) as [Hk|Hk].
  - rewrite (Z.max_r 0 (k - 52)), (Z.max_l 0 (- (k - 52))) by lia.
    rewrite (Z.max_r 0 k), (Z.max_l 0 (- k)) in HL by lia.
    rewrite (Z.max_r 0 (k + 1)), (Z.max_l 0 (- (k + 1))) in HU by lia.
    replace (2 ^ k) with (2 ^ 52 * 2 ^ (k - 52)) in HL
      by (rewrite <- Z.pow_add_r by lia; f_equal; lia).
    replace (2 ^ (k + 1)) with (2 ^ 53 * 2 ^ (k - 52)) in HU
      by (rewrite <- Z.pow_add_r by lia; f_equal; lia).
    lia.
  - rewrite (Z.max_l 0 (k - 52)), (Z.max_r 0 (- (k - 52))) by lia.
    destruct (Z_le_gt_dec 0 k) as [Hk0|Hk0].
    + rewrite (Z.max_r 0 k), (Z.max_l 0 (- k)) in HL by lia.
      rewrite (Z.max_r 0 (k + 1)), (Z.max_l 0 (- (k + 1))) in HU by lia.
      assert (E52 : 2 ^ 52 = 2 ^ k * 2 ^ (- (k - 52)))
        by (rewrite <- Z.pow_add_r by lia; f_equal; lia).
      assert (E53 : 2 ^ 53 = 2 ^ (k + 1) * 2 ^ (- (k - 52)))
        by (rewrite <- Z.pow_add_r by lia; f_equal; lia).
      assert (0 < 2 ^ (- (k - 52))) by (apply Z.pow_pos_nonneg; lia).
      rewrite E52, E53. change (2 ^ 0) with 1 in *. nia.
    + rewrite (Z.max_l 0 k), (Z.max_r 0 (- k)) in HL by lia.
      rewrite (Z.max_l 0 (k + 1)), (Z.max_r 0 (- (k + 1))) in HU by lia.
      assert (E52 : 2 ^ (- (k - 52)) = 2 ^ 52 * 2 ^ (- k))
        by (rewrite <- Z.pow_add_r by lia; f_equal; lia).
      assert (E53 : 2 ^ (- (k - 52)) = 2 ^ 53 * 2 ^ (- (k + 1)))
        by (rewrite <- Z.pow_add_r by lia; f_equal; lia).
      change (2 ^ 0) with 1 in *.
      split; [rewrite E52 | rewrite E53]; nia.
Qed.
(** The significand of a rounded fraction has 53 bits; it is [2^53] when
    the rounding carries. *)
Lemma round_pos_normal (p q : Z) :
  0 < p -> 0 < q -> 2 ^ 52 <= mant (round_pos p q) <= 2 ^ 53.
Proof.
  intros Hp Hq.
  pose proof (round_pos_exponent p q Hp Hq) as Hk.
  apply exponent_of_scaled in Hk; [|exact Hp|exact Hq]. cbv zeta in Hk.
  replace (expo (round_pos p q) + 52 - 52) with (expo (round_pos p q)) in Hk
    by lia.
  set (e := expo (round_pos p q)) in *.
  assert (HD : 0 < q * 2 ^ Z.max 0 e)
    by (apply Z.mul_pos_pos; [lia | apply Z.pow_pos_nonneg; lia]).
  destruct (round_half_even_near (p * 2 ^ Z.max 0 (- e)) (q * 2 ^ Z.max 0 e) HD)
    as [Hup Hdown].
  change (round_half_even (p * 2 ^ Z.max 0 (- e)) (q * 2 ^ Z.max 0 e))
    with (mant (round_pos p q)) in Hup, Hdown.
  change (2 ^ 52) with 4503599627370496 in *.
  change (2 ^ 53) with 9007199254740992 in *.
  destruct Hk as [Hlo Hhi]. split; nia.
Qed.

End Rounding.

(** ** Floats: a division by a positive integer is defined *)

Section FloatFacts.
Import F64.

Lemma round_pos_mant_pos (p q : Z) :
  0 < p -> 0 < q -> 0 < mant (round_pos p q).
Proof.
  intros Hp Hq. pose proof (round_pos_normal p q Hp Hq) as [Hlo _].
  eapply Z.lt_le_trans; [|exact Hlo]. reflexivity.
Qed.

Lemma of_int_mant_pos (n : Z) : 0 < n -> 0 < mant (of_int n).
Proof.
  intros Hn. unfold of_int, round.
  destruct (Z.eqb_spec n 0); [lia|].
  destruct (Z.ltb_spec n 0); [lia|].
  apply round_pos_mant_pos; lia.
Qed.

Lemma to_frac_num_pos (x : t) : 0 < mant x -> 0 < fst (to_frac x).
Proof.
  intros Hm. unfold to_frac.
  destruct (Z.leb_spec 0 (expo x)); cbn [fst]; [|lia].
  apply Z.mul_pos_pos; [lia | apply Z.pow_pos_nonneg; lia].
Qed.

Lemma div_defined (x y : t) : 0 < mant y -> exists q, div x y = Some q.
Proof.
  intros Hy. unfold div.
  pose proof (to_frac_num_pos y Hy) as Hc.
  destruct (to_frac x) as [a b], (to_frac y) as [c d]. cbn [fst] in Hc.
  destruct (Z.eqb_spec c 0); [lia|].
  destruct (Z.ltb_spec c 0); [lia|].
  eauto.
Qed.

End FloatFacts.

(** ** Floats: the threshold of the severity word *)

Section Threshold.
Import F64.

Lemma round_pos_mant (p q : Z) :
  mant (round_pos p q)
  = round_half_even (p * 2 ^ Z.max 0 (- expo (round_pos p q)))
      (q * 2 ^ Z.max 0 (expo (round_pos p q))).
Proof. reflexivity. Qed.

(** An integer below [2^53] is a float. *)
Lemma of_int_frac (n : Z) :
  0 < n < 2 ^ 53 ->
  exists b, 0 < b /\ to_frac (of_int n) = (n * b, b).
Proof.
  intros [Hn Hlt]. unfold of_int, round.
  destruct (Z.eqb_spec n 0); [lia|].
  destruct (Z.ltb_spec n 0); [lia|].
  pose proof (Z.log2_nonneg n) as Hl0.
  assert (Hl : Z.log2 n < 53) by (apply Z.log2_lt_pow2; lia).
  destruct (Z.log2_spec n Hn) as [Hlo _].
  unfold round_pos. change (Z.log2 1) with 0. rewrite Z.sub_0_r.
  rewrite (Z.max_l 0 (- Z.log2 n)), (Z.max_r 0 (Z.log2 n)) by lia.
  destruct (Z.ltb_spec (n * 2 ^ 0) (1 * 2 ^ Z.log2 n)) as [Hc|_];
    [change (2 ^ 0) with 1 in Hc; lia|].
  rewrite (Z.max_l 0 (Z.log2 n - 52)), (Z.max_r 0 (- (Z.log2 n - 52))) by lia.
  set (b := 2 ^ (- (Z.log2 n - 52))).
  assert (Hb : 0 < b) by (apply Z.pow_pos_nonneg; lia).
  assert (Hr : round_half_even (n * b) (1 * 2 ^ 0) = n * b).
  { unfold round_half_even. change (1 * 2 ^ 0) with 1.
    rewrite Z.mod_1_r, Z.div_1_r. reflexivity. }
  rewrite Hr. unfold to_frac. cbn [mant expo].
  destruct (Z.leb_spec 0 (Z.log2 n - 52)) as [He|He].
  - assert (Z.log2 n = 52) as E by lia.
    exists 1. split; [lia|]. unfold b. rewrite E.
    change (2 ^ (- (52 - 52))) with 1. change (2 ^ (52 - 52)) with 1.
    f_equal. lia.
  - exists b. split; [exact Hb | reflexivity].
Qed.

Lemma to_frac_c_0_05 :
  to_frac c_0_05 = (7205759403792794, 144115188075855872).
Proof. reflexivity. Qed.

(** The comparison of line 118 in integers: [t < n * 0.05] on floats is
    [20 * t < n]. *)
Lemma lt_five_percent (t n : Z) :
  0 <= t < 2 ^ 53 -> 0 <= n < 2 ^ 53 ->
  ltb (of_int t) (mul (of_int n) c_0_05) = (20 * t <? n).
Proof.
  intros Ht Hn.
  assert (Ht' : exists a' b', 0 < b' /\ to_frac (of_int t) = (a', b')
                              /\ a' = t * b').
  { destruct (Z.eq_dec t 0) as [->|Ht0].
    - exists 0, 1. repeat split; lia.
    - destruct (of_int_frac t ltac:(lia)) as (b' & Hb' & E).
      exists (t * b'), b'. auto. }
  destruct Ht' as (a' & b' & Hb' & Et & ->).
  destruct (Z.eq_dec n 0) as [->|Hn0].
  - (* no row *)
    unfold ltb. rewrite Et. change (mul (of_int 0) c_0_05) with (mk 0 0).
    change (to_frac (mk 0 0)) with (0, 1).
    destruct (Z.ltb_spec (t * b' * 1) (0 * b')), (Z.ltb_spec (20 * t) 0);
      try reflexivity; nia.
  - destruct (of_int_frac n ltac:(lia)) as (b & Hb & En).
    unfold mul. rewrite En, to_frac_c_0_05. unfold round.
    set (P := n * b * 7205759403792794).
    set (Q := b * 144115188075855872).
    assert (HP : 0 < P) by (unfold P; nia).
    assert (HQ : 0 < Q) by (unfold Q; nia).
    destruct (Z.eqb_spec P 0); [lia|].
    destruct (Z.ltb_spec P 0); [lia|].
    pose proof (round_pos_exponent P Q HP HQ) as Hk.
    apply exponent_of_scaled in Hk; [|exact HP|exact HQ].
    cbv zeta in Hk.
    replace (expo (round_pos P Q) + 52 - 52) with (expo (round_pos P Q)) in Hk
      by lia.
    pose proof (round_pos_mant P Q) as Hm.
    set (e := expo (round_pos P Q)) in *.
    set (m := mant (round_pos P Q)) in *.
    destruct Hk as [Hlo Hhi].
    (* the exponent is at most -4 *)
    assert (He : e <= -4).
    { destruct (Z_le_gt_dec e (-4)) as [|Hgt]; [assumption|exfalso].
      assert (Hs : 2 ^ Z.max 0 (- e) <= 2 ^ 3)
        by (apply Z.pow_le_mono_r; lia).
      assert (Hd : 1 <= 2 ^ Z.max 0 e)
        by (apply (Z.pow_le_mono_r 2 0); lia).
      change (2 ^ 3) with 8 in Hs. change (2 ^ 52) with 4503599627370496 in Hlo.
      change (2 ^ 53) with 9007199254740992 in Hn.
      assert (4503599627370496 * Q <= 8 * P) by nia.
      unfold P, Q in *. nia. }
    rewrite (Z.max_l 0 e), (Z.max_r 0 (- e)) in * by lia.
    change (2 ^ 0) with 1 in *. rewrite Z.mul_1_r in *.
    set (E := 2 ^ (- e)) in *.
    assert (HE : 16 <= E)
      by (apply (Z.pow_le_mono_r 2 4); lia).
    destruct (round_half_even_near (P * E) Q HQ) as [Hup Hdown].
    rewrite <- Hm in Hup, Hdown.
    assert (Efr : to_frac (round_pos P Q) = (m, E)).
    { unfold to_frac. fold e. fold m.
      destruct (Z.leb_spec 0 e); [lia | reflexivity]. }
    unfold ltb. rewrite Et, Efr.
    change (2 ^ 52) with 4503599627370496 in *.
    change (2 ^ 53) with 9007199254740992 in *.
    destruct (Z.ltb_spec (20 * t) n) as [Hlt|Hge].
    + (* more than twenty rows for each missing cell *)
      apply Z.ltb_lt.
      assert (t * E < m); [|nia].
      destruct (Z_lt_ge_dec (t * E) m) as [|Hle]; [assumption|exfalso].
      assert (H1 : 2 * (P * E) <= 2 * (t * E * Q) + Q) by nia.
      unfold P, Q in H1.
      assert (H2 : 2 * (n * 7205759403792794 * E)
                   <= 2 * (t * E * 144115188075855872) + 144115188075855872)
        by nia.
      assert (H3 : (20 * t + 1) * E <= n * E) by nia.
      nia.
    + apply Z.ltb_ge.
      assert (m <= t * E); [|nia].
      destruct (Z_le_gt_dec m (t * E)) as [|Hgt]; [assumption|exfalso].
      assert (H1 : 2 * ((t * E + 1) * Q) <= 2 * (P * E) + Q) by nia.
      assert (H4 : t * E < 9007199254740992) by nia.
      unfold P, Q in H1.
      assert (H2 : 2 * ((t * E + 1) * 144115188075855872)
                   <= 2 * (n * 7205759403792794 * E) + 144115188075855872)
        by nia.
      assert (H3 : n * E <= 20 * (t * E)) by nia.
      nia.
Qed.

End Threshold.

Lemma truediv_of_int (x : F64.t) (n : Z) :
  0 < n -> exists q, truediv x (F64.of_int n) = inr q.
Proof.
  intros Hn. unfold truediv.
  destruct (div_defined x (F64.of_int n) (of_int_mant_pos n Hn)) as [q ->].
  eauto.
Qed.

(** ** Strings: decimal digits *)

Section StringFacts.
Import PyStr.

Lemma is_digit_digit_char (d : Z) :
  0 <= d < 10 -> is_digit (digit_char d) = true.
Proof.
  intros Hd.
  assert (H : d = 0 \/ d = 1 \/ d = 2 \/ d = 3 \/ d = 4 \/ d = 5 \/ d = 6
              \/ d = 7 \/ d = 8 \/ d = 9) by lia.
  repeat (destruct H as [-> | H]; [reflexivity|]).
  subst d. reflexivity.
Qed.

Lemma all_digits_digits_from (fuel : nat) :
  forall n acc, all_digits acc = true ->
                all_digits (digits_from fuel n acc) = true.
Proof.
  induction fuel as [|fuel IH]; intros n acc Hacc; cbn [digits_from].
  - exact Hacc.
  - assert (Hacc' : all_digits (String (digit_char (n mod 10)) acc) = true).
    { cbn [all_digits]. rewrite is_digit_digit_char, Hacc by
        (apply Z.mod_pos_bound; lia). reflexivity. }
    destruct (n <? 10); [exact Hacc' | apply IH, Hacc'].
Qed.

Lemma digits_from_nonempty (fuel : nat) :
  forall n acc, acc <> "" -> digits_from fuel n acc <> "".
Proof.
  induction fuel as [|fuel IH]; intros n acc Hacc; cbn [digits_from].
  - exact Hacc.
  - destruct (n <? 10); [discriminate | apply IH; discriminate].
Qed.

Lemma all_digits_str_nat (n : Z) : all_digits (str_nat n) = true.
Proof. apply all_digits_digits_from. reflexivity. Qed.

Lemma str_nat_nonempty (n : Z) : str_nat n <> "".
Proof.
  unfold str_nat. cbn [digits_from].
  destruct (n <? 10); [discriminate | apply digits_from_nonempty; discriminate].
Qed.

Lemma all_digits_pad2 (n : Z) :
  0 <= n < 100 -> all_digits (F64.pad2 n) = true.
Proof.
  intros Hn. unfold F64.pad2. cbn [all_digits].
  rewrite !is_digit_digit_char; [reflexivity | |].
  - apply Z.mod_pos_bound; lia.
  - split; [apply Z.div_pos; lia | apply Z.div_lt_upper_bound; lia].
Qed.

Lemma digit_char_value (d : Z) :
  0 <= d < 10 -> Z.of_nat (nat_of_ascii (digit_char d)) - 48 = d.
Proof.
  intros Hd.
  assert (H : d = 0 \/ d = 1 \/ d = 2 \/ d = 3 \/ d = 4 \/ d = 5 \/ d = 6
              \/ d = 7 \/ d = 8 \/ d = 9) by lia.
  repeat (destruct H as [-> | H]; [reflexivity|]).
  subst d. reflexivity.
Qed.

Lemma digits_from_value (fuel : nat) :
  forall n acc,
    0 <= n < 2 ^ Z.of_nat fuel ->
    digits_value 0 (digits_from fuel n acc) = digits_value n acc.
Proof.
  induction fuel as [|fuel IH]; intros n acc Hn.
  - change (2 ^ Z.of_nat 0) with 1 in Hn.
    assert (n = 0) as -> by lia. reflexivity.
  - cbn [digits_from].
    pose proof (Z.mod_pos_bound n 10 ltac:(lia)) as Hmod.
    pose proof (Z.div_mod n 10 ltac:(lia)) as Hdm.
    destruct (Z.ltb_spec n 10) as [Hlt|Hge].
    + cbn [digits_value]. rewrite digit_char_value by exact Hmod.
      rewrite Z.mod_small by lia. reflexivity.
    + rewrite IH.
      * cbn [digits_value]. rewrite digit_char_value by exact Hmod.
        f_equal. lia.
      * rewrite Nat2Z.inj_succ, Z.pow_succ_r in Hn by lia.
        split; [apply Z.div_pos; lia|].
        apply Z.div_lt_upper_bound; lia.
Qed.

(** The digits of [str_nat n] write [n]. *)
Lemma str_nat_value (n : Z) : 0 <= n -> digits_value 0 (str_nat n) = n.
Proof.
  intros Hn. unfold str_nat. rewrite digits_from_value; [reflexivity|].
  split; [exact Hn|].
  destruct (Z.eq_dec n 0) as [->|Hn0]; [reflexivity|].
  rewrite Nat2Z.inj_succ, Z2Nat.id by apply Z.log2_nonneg.
  apply Z.log2_spec. lia.
Qed.

End StringFacts.

Lemma format_2f_two_decimals (x : F64.t) : two_decimals (F64.format_2f x).
Proof.
  unfold F64.format_2f. destruct (F64.to_frac x) as [a b].
  eexists _, _. split; [reflexivity|].
  split; [apply str_nat_nonempty|].
  split; [apply all_digits_str_nat|].
  split; [reflexivity|].
  apply all_digits_pad2, Z.mod_pos_bound. lia.
Qed.

(** ** Dictionaries built from items with distinct keys *)

Section DictFacts.
Context {V : Type}.

Lemma set_fresh (k : string) (v : V) (d : PyDict.t V) :
  ~ In k (PyDict.keys d) -> PyDict.set k v d = (d ++ [(k, v)])%list.
Proof.
  induction d as [|[k' v'] d IH]; intros Hk; cbn [PyDict.set app].
  - reflexivity.
  - cbn in Hk. destruct (String.eqb_spec k k') as [->|_].
    + exfalso. apply Hk. now left.
    + f_equal. apply IH. intros Hin. apply Hk. now right.
Qed.

Lemma fold_set_nodup (items : list (string * V)) :
  forall acc : PyDict.t V,
    NoDup (map fst (acc ++ items)%list) ->
    fold_left (fun d kv => PyDict.set (fst kv) (snd kv) d) items acc
    = (acc ++ items)%list.
Proof.
  induction items as [|[k v] items IH]; intros acc Hnd; cbn [fold_left].
  - now rewrite app_nil_r.
  - cbn [fst snd]. rewrite set_fresh.
    + rewrite IH; rewrite <- app_assoc; [reflexivity | exact Hnd].
    + rewrite map_app in Hnd. cbn [map fst] in Hnd.
      apply NoDup_remove_2 in Hnd. intros Hin. apply Hnd.
      apply in_or_app. now left.
Qed.

(** With distinct keys, the dict holds the items as they are. *)
Lemma of_items_nodup (items : list (string * V)) :
  NoDup (map fst items) -> PyDict.of_items items = items.
Proof.
  intros Hnd. unfold PyDict.of_items. now rewrite fold_set_nodup.
Qed.

End DictFacts.

(** The positive entries of a series with distinct labels have distinct
    labels. *)
Lemma series_positive_labels (s : Series) :
  NoDup (map fst s) -> NoDup (map fst (Pandas.series_positive s)).
Proof.
  unfold Pandas.series_positive.
  induction s as [|[label n] s IH]; intros Hnd; cbn [filter map fst snd] in *.
  - exact Hnd.
  - apply NoDup_cons_iff in Hnd as [Hfresh Hnd].
    destruct (0 <? n); [|exact (IH Hnd)].
    cbn [map fst]. apply NoDup_cons; [|exact (IH Hnd)].
    intros Hin. apply Hfresh.
    apply in_map_iff in Hin as (kv & Hkv & Hin).
    apply filter_In in Hin as [Hin _].
    rewrite <- Hkv. now apply in_map.
Qed.

Lemma isnull_sum_keys (df : DataFrame) :
  map fst (Pandas.isnull_sum df) = map col_name (columns df).
Proof.
  unfold Pandas.isnull_sum. rewrite map_map. reflexivity.
Qed.

(** ** The handler, step by step *)

Lemma fst_bind {A B : Type} (m : M A) (f : A -> M B) :
  fst (bind m f)
  = match fst m with
    | inl e => inl e
    | inr a => fst (f a)
    end.
Proof.
  destruct m as [[e|a] t]; cbn; [reflexivity|].
  destruct (f a); reflexivity.
Qed.

Lemma files_getitem_contains (key : string) (files : list (string * UploadedFile))
  (f : UploadedFile) :
  files_getitem key files = Some f -> files_contains key files = true.
Proof.
  unfold files_contains. revert f.
  induction files as [|[k f'] files IH]; intros f; cbn; [discriminate|].
  destruct (files_getitem key files) as [f''|].
  - intros _. rewrite (IH f'' eq_refl). apply orb_true_r.
  - destruct (String.eqb key k); [reflexivity | discriminate].
Qed.

(** A table is not empty: it has a row and a column. *)
Lemma not_empty_cells (df : DataFrame) :
  Pandas.empty df = false -> 0 < Pandas.len df * Pandas.len_columns df.
Proof.
  unfold Pandas.empty. intros H.
  apply orb_false_elim in H as [Hr Hc].
  apply Z.eqb_neq in Hr, Hc.
  unfold Pandas.len, Pandas.len_columns in *. nia.
Qed.

Lemma missing_percent_defined (df : DataFrame) :
  Pandas.empty df = false -> exists percent, missing_percent df = inr percent.
Proof.
  intros Hne. unfold missing_percent.
  destruct (truediv_of_int (F64.of_int (total_null df)) _ (not_empty_cells df Hne))
    as [q ->].
  eauto.
Qed.

Lemma compute_metrics_defined (env : Env) (df : DataFrame) :
  exists mb,
    compute_metrics env df
    = inr {| total_rows := Pandas.len df;
             total_columns := Pandas.len_columns df;
             column_names := Pandas.columns_tolist df;
             column_types := Pandas.to_dict (Pandas.dtypes_str df);
             missing_values := Pandas.to_dict (Pandas.isnull_sum df);
             total_missing := total_null df;
             memory_usage_mb := mb;
             numeric_columns := Pandas.select_number df;
             categorical_columns := Pandas.select_object df |}.
Proof.
  unfold compute_metrics, np_round2.
  destruct (truediv_of_int (F64.of_int (memory_usage_deep env df)) (1024 ^ 2))
    as [mb ->]; [reflexivity|].
  destruct (truediv_of_int
              (F64.of_int (F64.rint (F64.mul mb (F64.of_int 100)))) 100)
    as [mb2 ->]; [reflexivity|].
  eauto.
Qed.

Lemma compute_metrics_inv (env : Env) (df : DataFrame) (m : Metrics) :
  compute_metrics env df = inr m ->
  total_rows m = Pandas.len df
  /\ total_columns m = Pandas.len_columns df
  /\ column_names m = Pandas.columns_tolist df
  /\ column_types m = Pandas.to_dict (Pandas.dtypes_str df)
  /\ missing_values m = Pandas.to_dict (Pandas.isnull_sum df)
  /\ total_missing m = total_null df
  /\ numeric_columns m = Pandas.select_number df
  /\ categorical_columns m = Pandas.select_object df.
Proof.
  intros H. destruct (compute_metrics_defined env df) as [mb Hm].
  rewrite Hm in H. injection H as <-. cbn. repeat split.
Qed.

(** A valid upload of a table that is not empty reaches the analysis. *)
Lemma post_body_valid (env : Env) (request : Request) (f : UploadedFile)
  (df : DataFrame) :
  files_getitem "file" (FILES request) = Some f ->
  PyStr.endswith ".csv" (name f) = true ->
  read_csv env f = inr df ->
  Pandas.empty df = false ->
  post_body env request = describe_table env f df.
Proof.
  intros Hf Hext Hcsv Hne. unfold post_body.
  rewrite (files_getitem_contains _ _ _ Hf), Hf. cbn.
  rewrite Hext, Hcsv, Hne. cbn.
  destruct (describe_table env f df) as [r t]. reflexivity.
Qed.

(** When the attempt raises, the analysis is the fallback. *)
Lemma analyze_failed (env : Env) (dataset_info : DatasetInfo) (df : DataFrame)
  (e : exn) :
  fst (ai_attempt env dataset_info) = inl e ->
  fst (analyze_with_gemini env dataset_info df) = fallback df e.
Proof.
  unfold analyze_with_gemini, try_except.
  destruct (ai_attempt env dataset_info) as [[e'|a] t]; cbn [fst];
    intros H; [|discriminate].
  injection H as ->. cbn. reflexivity.
Qed.

(** When the attempt returns, the analysis is what it returns. *)
Lemma analyze_succeeded (env : Env) (dataset_info : DatasetInfo)
  (df : DataFrame) (a : pyval) :
  fst (ai_attempt env dataset_info) = inr a ->
  fst (analyze_with_gemini env dataset_info df) = inr a.
Proof.
  unfold analyze_with_gemini, try_except.
  destruct (ai_attempt env dataset_info) as [[e'|a'] t]; cbn [fst];
    intros H; [discriminate|exact H].
Qed.

(** The attempt raises when the remote call raises, or when it returns
    and the parsing of the reply raises. *)
Lemma ai_attempt_raises (env : Env) (dataset_info : DatasetInfo) (e : exn) :
  fst (ai_attempt env dataset_info) = inl e
  <-> generate_content env (build_prompt dataset_info) = inl e
      \/ exists text,
           generate_content env (build_prompt dataset_info) = inr text
           /\ json_loads env (strip_fences (PyStr.strip text)) = inl e.
Proof.
  unfold ai_attempt, emit, lift, bind, ret.
  destruct (generate_content env (build_prompt dataset_info)) as [e'|text];
    cbn [fst].
  - split.
    + intros H. injection H as ->. now left.
    + intros [H|(t & H & _)]; [|discriminate H].
      injection H as ->. reflexivity.
  - destruct (json_loads env (strip_fences (PyStr.strip text))) as [e'|a] eqn:Hj;
      cbn [fst].
    + split.
      * intros H. right. exists text. now rewrite <- H.
      * intros [H|(t & Ht & Hl)]; [discriminate H|].
        injection Ht as <-. rewrite Hj in Hl. exact Hl.
    + split; [discriminate|].
      intros [H|(t & Ht & Hl)]; [discriminate H|].
      injection Ht as <-. rewrite Hj in Hl. discriminate Hl.
Qed.

(** The assembly from an analysis that is a dict. *)
Lemma describe_table_dict (env : Env) (f : UploadedFile) (df : DataFrame)
  (items : PyDict.t pyval) (m : Metrics) :
  fst (analyze_with_gemini env (get_dataset_info env df) df) = inr (PDict items) ->
  compute_metrics env df = inr m ->
  fst (describe_table env f df)
  = inr (mkResponse
           (response_data env f
              (get_default items "dataset_description" (PStr ""))
              (get_default items "key_insights" (PList []))
              (get_default items "data_quality" (PDict []))
              (get_default items "recommendations" (PList []))
              m)
           HTTP_200_OK).
Proof.
  intros Ha Hm. unfold describe_table.
  rewrite fst_bind, Ha. rewrite fst_bind. unfold lift at 1. cbn [fst].
  rewrite Hm. reflexivity.
Qed.

(** The assembly from an analysis that is not a dict. *)
Lemma describe_table_not_dict (env : Env) (f : UploadedFile) (df : DataFrame)
  (a : pyval) :
  fst (analyze_with_gemini env (get_dataset_info env df) df) = inr a ->
  is_dict a = false ->
  fst (describe_table env f df)
  = inl ("'" ++ type_name a ++ "' object has no attribute 'get'").
Proof.
  intros Ha Hd. unfold describe_table.
  destruct (compute_metrics_defined env df) as [mb Hm].
  rewrite fst_bind, Ha. rewrite fst_bind. unfold lift at 1. cbn [fst].
  rewrite Hm. rewrite fst_bind.
  destruct a; try discriminate Hd; reflexivity.
Qed.

(** The response of a POST request is read off the body of the [try]. *)
Lemma dataset_description_post (env : Env) (request : Request) :
  method request = POST ->
  fst (dataset_description env request)
  = match fst (post_body env request) with
    | inr response => response
    | inl e => error_response ("An error occurred: " ++ e)
                 HTTP_500_INTERNAL_SERVER_ERROR
    end.
Proof.
  intros Hm. unfold dataset_description. rewrite Hm.
  destruct (post_body env request) as [[e|r] t]; reflexivity.
Qed.

(** The narrative that the fallback returns, given the percentage. *)
Lemma fallback_eq (df : DataFrame) (error_msg : string) (percent : F64.t) :
  missing_percent df = inr percent ->
  let numeric_cols := Pandas.select_number df in
  let categorical_cols := Pandas.select_object df in
  let missing_cols :=
    Pandas.to_dict (Pandas.series_positive (Pandas.isnull_sum df)) in
  exists description completeness,
    fallback df error_msg
    = inr (PDict
        [ ("dataset_description", PStr description);
          ("key_insights", PList
            [ PStr ("Total records: " ++ PyStr.format_comma (Pandas.len df));
              PStr ("Total features: " ++ PyStr.str_int (Pandas.len_columns df));
              PStr ("Numerical features: "
                    ++ PyStr.str_int (Z.of_nat (List.length numeric_cols)));
              PStr ("Categorical features: "
                    ++ PyStr.str_int (Z.of_nat (List.length categorical_cols)));
              PStr ("Missing values: " ++ PyStr.format_comma (total_null df)
                    ++ " (" ++ F64.format_2f percent ++ "%)") ]);
          ("data_quality", PDict
            [ ("completeness", PStr completeness);
              ("potential_issues", PList
                (if PyDict.truthy missing_cols
                 then map (fun kv => PStr (issue_line kv)) (firstn 5 missing_cols)
                 else [PStr "Data appears complete"])) ]);
          ("recommendations", PList (map PStr recommendations)) ]).
Proof.
  intros Hp. cbv zeta. unfold fallback. rewrite Hp.
  eexists _, _. reflexivity.
Qed.

(** ** The severity word *)

Lemma total_null_nonneg (df : DataFrame) : 0 <= total_null df.
Proof.
  unfold total_null, Pandas.series_sum, Pandas.isnull_sum.
  unfold sum_Z.
  induction (columns df) as [|c cols IH]; cbn [map fold_right snd].
  - lia.
  - assert (0 <= Pandas.count_null c) by (unfold Pandas.count_null; lia).
    lia.
Qed.

(** X19.  The severity word of the fallback is [minimal] exactly when the
    table has more than twenty rows for each missing cell, for counts
    below [2^53]: the comparison on floats with [len(df) * 0.05] is the
    comparison [20 * missing < rows] on integers. *)
Lemma missing_severity_rows (df : DataFrame) :
  total_null df < 2 ^ 53 ->
  Pandas.len df < 2 ^ 53 ->
  missing_severity df
  = if 20 * total_null df <? Pandas.len df then "minimal" else "significant".
Proof.
  intros Ht Hn. unfold missing_severity.
  rewrite lt_five_percent; [reflexivity | |].
  - split; [apply total_null_nonneg | exact Ht].
  - split; [unfold Pandas.len; lia | exact Hn].
Qed.

(** ** The model on concrete inputs *)

Example endswith_csv :
  PyStr.endswith ".csv" "data.csv" = true
  /\ PyStr.endswith ".csv" "data.CSV" = false
  /\ PyStr.endswith ".csv" "csv" = false.
Proof. repeat split. Qed.

Example remove_is_greedy_from_the_left :
  PyStr.remove "aa" "aaaaa" = "a" /\ PyStr.remove "ab" "aabb" = "ab".
Proof. split; reflexivity. Qed.

Example strip_fences_json :
  strip_fences (PyStr.strip (" ```json" ++ PyStr.nl ++ "{}" ++ PyStr.nl ++ "``` "))
  = "{}".
Proof. reflexivity. Qed.

Example format_comma_groups :
  PyStr.format_comma 999 = "999"
  /\ PyStr.format_comma 1000 = "1,000"
  /\ PyStr.format_comma 1234567 = "1,234,567".
Proof. repeat split. Qed.

Example api_status_rate_limit :
  api_status "429 Resource has been exhausted"
  = "Rate limit exceeded. Using fallback analysis."
  /\ api_status "Quota exceeded" = "Rate limit exceeded. Using fallback analysis."
  /\ api_status "timed out"
     = "API unavailable: timed out. Using fallback analysis.".
Proof. repeat split. Qed.

(** [0.05] is [0x1.999999999999ap-5], and [20 * 0.05 == 1.0]. *)
Example float_0_05 :
  F64.c_0_05 = F64.mk 7205759403792794 (-57)
  /\ F64.mul (F64.of_int 20) F64.c_0_05 = F64.mk (2 ^ 52) (-52).
Proof. split; reflexivity. Qed.

(** [f"{1 / 3 * 100:.2f}"], [f"{1 / 800 * 100:.2f}"] and [f"{5 / 5 * 100:.2f}"]. *)
Example percent_two_decimals :
  let percent t n :=
    match truediv (F64.of_int t) (F64.of_int n) with
    | inr q => F64.format_2f (F64.mul q (F64.of_int 100))
    | inl e => e
    end in
  percent 1 3 = "33.33" /\ percent 1 800 = "0.12" /\ percent 5 5 = "100.00".
Proof. repeat split. Qed.

(** The scenario of three rows and two columns with the remote model
    down. *)
Example three_rows_two_columns :
  let response := fst (dataset_description Demo.env_down Demo.request) in
  status_code response = 200
  /\ py_item "status" (data response) = Some (PStr "success")
  /\ py_item "key_insights" (data response)
     = Some (PList [ PStr "Total records: 3";
                     PStr "Total features: 2";
                     PStr "Numerical features: 1";
                     PStr "Categorical features: 1";
                     PStr "Missing values: 0 (0.00%)" ])
  /\ option_map (py_item "total_rows") (py_item "metrics" (data response))
     = Some (Some (PInt 3))
  /\ option_map (py_item "total_columns") (py_item "metrics" (data response))
     = Some (Some (PInt 2)).
Proof. repeat split. Qed.

(** A GET request is answered with the instructions, whatever it holds. *)
Example get_instructions (env : Env) (files : list (string * UploadedFile)) :
  dataset_description env (mkRequest GET files)
  = (mkResponse help_data 200, []).
Proof. reflexivity. Qed.

(** ** The concrete tables are tables *)

Lemma demo_table_wf : wf_df Demo.table.
Proof.
  split; cbn.
  - repeat constructor.
  - repeat constructor; cbn; intuition discriminate.
Qed.

Lemma demo_sparse_wf : wf_df Demo.sparse.
Proof.
  split; cbn.
  - repeat constructor.
  - repeat constructor; cbn; intuition discriminate.
Qed.

(* ================================================================== *)
(** ** The claims *)
(* ================================================================== *)



(** C2.  The code does not follow the claim: the severity word compares
    the number of missing cells with 5% of the number of rows, not of the
    number of cells (see [missing_severity_rows]).  On a table of 20 rows
    and 3 columns with 2 missing cells, which is 2 out of 60 cells and less
    than 5% of them, the narrative says [significant], next to the insight
    that 3.33% of the cells are missing. *)
Theorem severity_ignores_columns :
  Pandas.len Demo.sparse = 20
  /\ Pandas.len_columns Demo.sparse = 3
  /\ total_null Demo.sparse = 2
  /\ 100 * total_null Demo.sparse
     < 5 * (Pandas.len Demo.sparse * Pandas.len_columns Demo.sparse)
  /\ missing_severity Demo.sparse = "significant"
  /\ fallback Demo.sparse "503 Service Unavailable"
     = inr (PDict
         [ ("dataset_description", PStr
             ("This dataset contains 20 records across 3 features. "
              ++ "It includes 2 numerical columns (id, score) "
              ++ "and 1 categorical columns (city). "
              ++ "The dataset shows significant missing data patterns. "
              ++ "Note: API unavailable: 503 Service Unavailable. "
              ++ "Using fallback analysis."));
           ("key_insights", PList
             [ PStr "Total records: 20";
               PStr "Total features: 3";
               PStr "Numerical features: 2";
               PStr "Categorical features: 1";
               PStr "Missing values: 2 (3.33%)" ]);
           ("data_quality", PDict
             [ ("completeness", PStr "Missing values found in 2 columns");
               ("potential_issues", PList
                 [ PStr "city: 1 missing"; PStr "score: 1 missing" ]) ]);
           ("recommendations", PList
             [ PStr "Examine distribution of numerical features for outliers";
               PStr "Check categorical variables for consistency";
               PStr "Consider feature engineering based on domain knowledge" ]) ]).
Proof. repeat split. Qed.

(** C3.  In the metrics of a table (as [pd.read_csv] returns it, with
    distinct column labels), [total_missing] is the sum over the columns of
    the counts held by [missing_values]. *)
Theorem total_missing_is_sum (env : Env) (df : DataFrame) (m : Metrics) :
  wf_df df ->
  compute_metrics env df = inr m ->
  total_missing m = sum_Z (PyDict.values (missing_values m)).
Proof.
  intros [_ Hnd] Hm.
  destruct (compute_metrics_inv env df m Hm)
    as (_ & _ & _ & _ & Hmv & Htm & _ & _).
  rewrite Hmv, Htm. unfold Pandas.to_dict.
  rewrite of_items_nodup by (rewrite isnull_sum_keys; exact Hnd).
  reflexivity.
Qed.

Lemma total_missing_is_sum_witness :
  exists m, compute_metrics Demo.env_down Demo.sparse = inr m
            /\ total_missing m = sum_Z (PyDict.values (missing_values m)).
Proof.
  destruct (compute_metrics_defined Demo.env_down Demo.sparse) as [mb Hm].
  eexists. split; [exact Hm|].
  exact (total_missing_is_sum Demo.env_down Demo.sparse _ demo_sparse_wf Hm).
Defined.

(** *** Numeric and categorical columns *)

Lemma number_not_object (t : dtype) :
  is_number t = true -> is_object t = true -> False.
Proof. destruct t; discriminate. Qed.

Lemma select_split (cols : list Column) :
  Forall numeric_or_text cols ->
  Permutation
    (map col_name (filter (fun c => is_number (col_dtype c)) cols)
     ++ map col_name (filter (fun c => is_object (col_dtype c)) cols))%list
    (map col_name cols).
Proof.
  induction 1 as [|c cols Hc _ IH]; cbn [filter map].
  - constructor.
  - destruct Hc as [Hn|Ho].
    + rewrite Hn.
      destruct (is_object (col_dtype c)) eqn:Ho;
        [destruct (number_not_object _ Hn Ho)|].
      cbn [map app]. now constructor.
    + rewrite Ho.
      destruct (is_number (col_dtype c)) eqn:Hn;
        [destruct (number_not_object _ Hn Ho)|].
      cbn [map]. symmetry. apply Permutation_cons_app. now symmetry.
Qed.

(** Among columns with distinct labels, a label selects one column. *)
Lemma label_selects_one (cols : list Column) (c c' : Column) :
  NoDup (map col_name cols) ->
  In c cols -> In c' cols -> col_name c = col_name c' -> c = c'.
Proof.
  induction cols as [|x cols IH]; cbn [map In]; [contradiction|].
  intros Hnd Hc Hc' Hname.
  apply NoDup_cons_iff in Hnd as [Hx Hnd].
  destruct Hc as [->|Hc], Hc' as [->|Hc'].
  - reflexivity.
  - exfalso. apply Hx. rewrite Hname. now apply in_map.
  - exfalso. apply Hx. rewrite <- Hname. now apply in_map.
  - now apply IH.
Qed.

(** C4.  For a table (as [pd.read_csv] returns it, with distinct column
    labels) whose columns are all numeric or text, the lists
    [numeric_columns] and [categorical_columns] of the metrics have no
    label in common, and together they hold the labels of [column_names],
    each one once. *)
Theorem numeric_categorical_partition (env : Env) (df : DataFrame) (m : Metrics) :
  wf_df df ->
  Forall numeric_or_text (columns df) ->
  compute_metrics env df = inr m ->
  Permutation (numeric_columns m ++ categorical_columns m)%list (column_names m)
  /\ (forall x, In x (numeric_columns m) -> In x (categorical_columns m) -> False)
  /\ (forall x, In x (column_names m)
                <-> In x (numeric_columns m) \/ In x (categorical_columns m)).
Proof.
  intros [_ Hnd] Hall Hm.
  destruct (compute_metrics_inv env df m Hm)
    as (_ & _ & Hnames & _ & _ & _ & Hnum & Hcat).
  rewrite Hnames, Hnum, Hcat.
  unfold Pandas.select_number, Pandas.select_object, Pandas.columns_tolist.
  pose proof (select_split (columns df) Hall) as Hperm.
  split; [exact Hperm|]. split.
  - intros x Hxn Hxo.
    apply in_map_iff in Hxn as (c & Hc & Hin).
    apply in_map_iff in Hxo as (c' & Hc' & Hin').
    apply filter_In in Hin as [Hin Hn].
    apply filter_In in Hin' as [Hin' Ho].
    assert (c = c') as <-
        by (apply (label_selects_one (columns df)); congruence).
    exact (number_not_object _ Hn Ho).
  - intros x. rewrite <- in_app_iff. split; intros Hx.
    + eapply Permutation_in; [symmetry; exact Hperm | exact Hx].
    + eapply Permutation_in; [exact Hperm | exact Hx].
Qed.

Lemma numeric_categorical_partition_witness :
  exists m,
    compute_metrics Demo.env_down Demo.sparse = inr m
    /\ Permutation (numeric_columns m ++ categorical_columns m)%list
         (column_names m)
    /\ (forall x, In x (numeric_columns m) -> In x (categorical_columns m) -> False)
    /\ (forall x, In x (column_names m)
                  <-> In x (numeric_columns m) \/ In x (categorical_columns m)).
Proof.
  destruct (compute_metrics_defined Demo.env_down Demo.sparse) as [mb Hm].
  eexists. split; [exact Hm|].
  apply (numeric_categorical_partition Demo.env_down Demo.sparse _
           demo_sparse_wf); [|exact Hm].
  repeat (apply Forall_cons || apply Forall_nil);
    unfold numeric_or_text; cbn; auto.
Defined.

(** *** Validation *)

(** C5.  A POST request that fails one of the four validations is answered
    400 with a body that holds the field [error], a string, and nothing
    else; the run leaves no trace: the remote model is not called and
    nothing is printed. *)
Theorem validation_failure_400 (env : Env) (request : Request) :
  method request = POST ->
  validation_failure env request ->
  exists message,
    dataset_description env request
    = (mkResponse (PDict [("error", PStr message)]) 400, []).
Proof.
  intros Hm Hv. unfold dataset_description, post_body. rewrite Hm.
  destruct Hv as [Hno | f Hf Hext | f e Hf Hext Hcsv | f df Hf Hext Hcsv Hemp].
  - rewrite Hno. eexists. reflexivity.
  - rewrite (files_getitem_contains _ _ _ Hf), Hf. cbn. rewrite Hext.
    eexists. reflexivity.
  - rewrite (files_getitem_contains _ _ _ Hf), Hf. cbn. rewrite Hext, Hcsv.
    eexists. reflexivity.
  - rewrite (files_getitem_contains _ _ _ Hf), Hf. cbn.
    rewrite Hext, Hcsv, Hemp. eexists. reflexivity.
Qed.

Lemma validation_failure_400_witness :
  exists message,
    dataset_description Demo.env_down Demo.request_txt
    = (mkResponse (PDict [("error", PStr message)]) 400, []).
Proof.
  apply (validation_failure_400 Demo.env_down Demo.request_txt eq_refl).
  apply (InvalidFileType _ _ Demo.upload_txt); reflexivity.
Defined.

(** *** The fallback narrative *)

(** The insights and the quality part of the narrative, given the
    quotient of the missing cells by the cells. *)
Lemma fallback_parts (df : DataFrame) (error_msg : string) (q : F64.t) :
  F64.div (F64.of_int (total_null df))
    (F64.of_int (Pandas.len df * Pandas.len_columns df)) = Some q ->
  let missing_cols :=
    Pandas.to_dict (Pandas.series_positive (Pandas.isnull_sum df)) in
  exists description,
    fallback df error_msg
    = inr (PDict
        [ ("dataset_description", PStr description);
          ("key_insights", PList
            [ PStr ("Total records: " ++ PyStr.format_comma (Pandas.len df));
              PStr ("Total features: " ++ PyStr.str_int (Pandas.len_columns df));
              PStr ("Numerical features: "
                    ++ PyStr.str_int
                         (Z.of_nat (List.length (Pandas.select_number df))));
              PStr ("Categorical features: "
                    ++ PyStr.str_int
                         (Z.of_nat (List.length (Pandas.select_object df))));
              PStr ("Missing values: " ++ PyStr.format_comma (total_null df)
                    ++ " (" ++ F64.format_2f (F64.mul q (F64.of_int 100))
                    ++ "%)") ]);
          ("data_quality", PDict
            [ ("completeness", PStr
                (if PyDict.truthy missing_cols
                 then "Missing values found in "
                      ++ PyStr.str_int (Z.of_nat (List.length missing_cols))
                      ++ " columns"
                 else "No missing values detected"));
              ("potential_issues", PList
                (if PyDict.truthy missing_cols
                 then map (fun kv => PStr (issue_line kv)) (firstn 5 missing_cols)
                 else [PStr "Data appears complete"])) ]);
          ("recommendations", PList (map PStr recommendations)) ]).
Proof.
  intros Hq. cbv zeta. unfold fallback, missing_percent, truediv. rewrite Hq.
  eexists. reflexivity.
Qed.

(** C6.  For a table that is not empty (as [pd.read_csv] returns it, with
    distinct column labels), the fallback narrative holds: five
    insights, which report the rows, the columns, the numeric columns, the
    categorical columns, and the missing cells with their percentage, the
    quotient of the missing cells by the rows times the columns, times
    100, written with two decimal places; the three fixed recommendations;
    and as potential issues either the line ["<column>: <count> missing"]
    of each of the first five columns that have missing cells, when there
    is one, or the single line ["Data appears complete"]. *)
Theorem fallback_shape (df : DataFrame) (error_msg : string) :
  wf_df df ->
  Pandas.empty df = false ->
  let missing := Pandas.series_positive (Pandas.isnull_sum df) in
  exists description quotient percent completeness issues,
    F64.div (F64.of_int (total_null df))
      (F64.of_int (Pandas.len df * Pandas.len_columns df)) = Some quotient
    /\ percent = F64.format_2f (F64.mul quotient (F64.of_int 100))
    /\ fallback df error_msg
       = inr (PDict
           [ ("dataset_description", PStr description);
             ("key_insights", PList
               [ PStr ("Total records: " ++ PyStr.format_comma (Pandas.len df));
                 PStr ("Total features: "
                       ++ PyStr.str_int (Pandas.len_columns df));
                 PStr ("Numerical features: "
                       ++ PyStr.str_int
                            (Z.of_nat (List.length (Pandas.select_number df))));
                 PStr ("Categorical features: "
                       ++ PyStr.str_int
                            (Z.of_nat (List.length (Pandas.select_object df))));
                 PStr ("Missing values: " ++ PyStr.format_comma (total_null df)
                       ++ " (" ++ percent ++ "%)") ]);
             ("data_quality", PDict
               [ ("completeness", PStr completeness);
                 ("potential_issues", PList (map PStr issues)) ]);
             ("recommendations", PList
               [ PStr "Examine distribution of numerical features for outliers";
                 PStr "Check categorical variables for consistency";
                 PStr "Consider feature engineering based on domain knowledge" ]) ])
    /\ two_decimals percent
    /\ match missing with
       | [] =>
           completeness = "No missing values detected"
           /\ issues = ["Data appears complete"]
       | _ :: _ =>
           completeness
           = "Missing values found in "
             ++ PyStr.str_int (Z.of_nat (List.length missing)) ++ " columns"
           /\ issues
              = map (fun kv => fst kv ++ ": " ++ PyStr.str_int (snd kv)
                               ++ " missing")
                  (firstn 5 missing)
           /\ (1 <= List.length issues <= 5)%nat
       end.
Proof.
  intros [_ Hnd] Hne missing.
  destruct (div_defined (F64.of_int (total_null df))
              (F64.of_int (Pandas.len df * Pandas.len_columns df))
              (of_int_mant_pos _ (not_empty_cells df Hne))) as [q Hq].
  destruct (fallback_parts df error_msg q Hq) as (description & Hfb).
  unfold Pandas.to_dict in Hfb.
  rewrite of_items_nodup in Hfb
    by (apply series_positive_labels; rewrite isnull_sum_keys; exact Hnd).
  fold missing in Hfb.
  rewrite <- (map_map issue_line PStr) in Hfb.
  exists description, q, (F64.format_2f (F64.mul q (F64.of_int 100))).
  destruct missing as [|kv rest] eqn:Hmissing.
  - exists "No missing values detected", ["Data appears complete"].
    split; [exact Hq|]. split; [reflexivity|]. split; [exact Hfb|].
    split; [apply format_2f_two_decimals|]. split; reflexivity.
  - do 2 eexists.
    split; [exact Hq|]. split; [reflexivity|]. split; [exact Hfb|].
    split; [apply format_2f_two_decimals|].
    split; [reflexivity|]. split; [reflexivity|].
    rewrite length_map, length_firstn. cbn [List.length]. lia.
Qed.

Lemma fallback_shape_witness :
  exists description quotient percent completeness issues,
    F64.div (F64.of_int 2) (F64.of_int (20 * 3)) = Some quotient
    /\ percent = F64.format_2f (F64.mul quotient (F64.of_int 100))
    /\ fallback Demo.sparse "429 quota"
       = inr (PDict
           [ ("dataset_description", PStr description);
             ("key_insights", PList
               [ PStr "Total records: 20";
                 PStr "Total features: 3";
                 PStr "Numerical features: 2";
                 PStr "Categorical features: 1";
                 PStr ("Missing values: 2 (" ++ percent ++ "%)") ]);
             ("data_quality", PDict
               [ ("completeness", PStr completeness);
                 ("potential_issues", PList (map PStr issues)) ]);
             ("recommendations", PList
               [ PStr "Examine distribution of numerical features for outliers";
                 PStr "Check categorical variables for consistency";
                 PStr "Consider feature engineering based on domain knowledge" ]) ])
    /\ two_decimals percent
    /\ completeness = "Missing values found in 2 columns"
       /\ issues = ["city: 1 missing"; "score: 1 missing"]
          /\ (1 <= List.length issues <= 5)%nat.
Proof.
  exact (fallback_shape Demo.sparse "429 quota" demo_sparse_wf eq_refl).
Defined.

(** The percentage that the fifth insight of [Demo.sparse] writes: 2
    cells out of 60. *)
Example sparse_percent :
  exists quotient,
    F64.div (F64.of_int 2) (F64.of_int (20 * 3)) = Some quotient
    /\ F64.format_2f (F64.mul quotient (F64.of_int 100)) = "3.33".
Proof. eexists. split; reflexivity. Qed.

(** C7.  For a table that is not empty, the fallback is defined: the
    number of cells by which the number of missing cells is divided is
    positive, the division has a result, and the fallback returns a
    narrative. *)
Theorem fallback_never_fails (df : DataFrame) (error_msg : string) :
  Pandas.empty df = false ->
  0 < Pandas.len df * Pandas.len_columns df
  /\ (exists q, F64.div (F64.of_int (total_null df))
                  (F64.of_int (Pandas.len df * Pandas.len_columns df)) = Some q)
  /\ (exists narrative, fallback df error_msg = inr narrative).
Proof.
  intros Hne. pose proof (not_empty_cells df Hne) as Hcells.
  split; [exact Hcells|]. split.
  - apply div_defined, of_int_mant_pos, Hcells.
  - destruct (missing_percent_defined df Hne) as [percent Hp].
    destruct (fallback_eq df error_msg percent Hp) as (d & c & Hfb).
    eexists. exact Hfb.
Qed.

Lemma fallback_never_fails_witness :
  0 < Pandas.len Demo.table * Pandas.len_columns Demo.table
  /\ (exists q, F64.div (F64.of_int (total_null Demo.table))
                  (F64.of_int (Pandas.len Demo.table
                               * Pandas.len_columns Demo.table)) = Some q)
  /\ (exists narrative, fallback Demo.table "timeout" = inr narrative).
Proof.
  apply (fallback_never_fails Demo.table "timeout"). reflexivity.
Defined.

(** C8.  The narrative of a failed attempt depends on the table and on the
    message of the failure only: two runs, in any two environments and on
    any two summaries, whose attempts fail with the same message on the
    same table return the same result, which is the fallback of the table
    and the message. *)
Theorem fallback_deterministic (env1 env2 : Env) (info1 info2 : DatasetInfo)
  (df : DataFrame) (e : exn) :
  fst (ai_attempt env1 info1) = inl e ->
  fst (ai_attempt env2 info2) = inl e ->
  fst (analyze_with_gemini env1 info1 df) = fst (analyze_with_gemini env2 info2 df)
  /\ fst (analyze_with_gemini env1 info1 df) = fallback df e.
Proof.
  intros H1 H2.
  rewrite (analyze_failed env1 info1 df e H1).
  rewrite (analyze_failed env2 info2 df e H2).
  split; reflexivity.
Qed.

Lemma fallback_deterministic_witness :
  let env2 := Demo.env (fun _ => inr "not json")
                (fun _ => inl "503 Service Unavailable") in
  let info1 := get_dataset_info Demo.env_down Demo.table in
  let info2 := mkInfo "h" "d" "i" in
  fst (analyze_with_gemini Demo.env_down info1 Demo.sparse)
  = fst (analyze_with_gemini env2 info2 Demo.sparse)
  /\ fst (analyze_with_gemini Demo.env_down info1 Demo.sparse)
     = fallback Demo.sparse "503 Service Unavailable".
Proof.
  apply (fallback_deterministic Demo.env_down
           (Demo.env (fun _ => inr "not json")
              (fun _ => inl "503 Service Unavailable"))
           (get_dataset_info Demo.env_down Demo.table) (mkInfo "h" "d" "i")
           Demo.sparse "503 Service Unavailable"); reflexivity.
Defined.

(** *** The assembly of the response *)

(** The claim C9 as it is written fails: the remote model may reply with
    JSON that is not an object, here an array, and the request then fails
    with status 500. *)
Lemma defaulted_access_counterexample :
  ~ (forall (env : Env) (request : Request) (f : UploadedFile)
            (df : DataFrame) (a : pyval),
        method request = POST ->
        files_getitem "file" (FILES request) = Some f ->
        PyStr.endswith ".csv" (name f) = true ->
        read_csv env f = inr df ->
        Pandas.empty df = false ->
        fst (ai_attempt env (get_dataset_info env df)) = inr a ->
        status_code (fst (dataset_description env request)) = 200).
Proof.
  intros H.
  specialize (H Demo.env_array Demo.request Demo.upload Demo.table (PList [])
                eq_refl eq_refl eq_refl eq_refl eq_refl eq_refl).
  vm_compute in H. discriminate H.
Qed.

(** C9, amended.  When the analysis that the remote model returns is a
    JSON object, the request succeeds, and each of the four narrative
    fields of the response is the value that the object holds under its
    key or, when the key is absent, the empty string, list or object. *)
Theorem object_fields_defaulted (env : Env) (request : Request)
  (f : UploadedFile) (df : DataFrame) (items : PyDict.t pyval) :
  method request = POST ->
  files_getitem "file" (FILES request) = Some f ->
  PyStr.endswith ".csv" (name f) = true ->
  read_csv env f = inr df ->
  Pandas.empty df = false ->
  fst (ai_attempt env (get_dataset_info env df)) = inr (PDict items) ->
  let field key default :=
    match PyDict.get key items with
    | Some v => v
    | None => default
    end in
  exists metrics,
    compute_metrics env df = inr metrics
    /\ fst (dataset_description env request)
       = mkResponse
           (PDict [ ("status", PStr "success");
                    ("timestamp", PStr (now_isoformat env));
                    ("filename", PStr (name f));
                    ("dataset_description", field "dataset_description" (PStr ""));
                    ("key_insights", field "key_insights" (PList []));
                    ("data_quality", field "data_quality" (PDict []));
                    ("recommendations", field "recommendations" (PList []));
                    ("metrics", metrics_data metrics) ])
           200.
Proof.
  intros Hm Hf Hext Hcsv Hne Hai field.
  destruct (compute_metrics_defined env df) as [mb Hmet].
  eexists. split; [exact Hmet|].
  rewrite (dataset_description_post env request Hm).
  rewrite (post_body_valid env request f df Hf Hext Hcsv Hne).
  apply (analyze_succeeded env _ df) in Hai.
  rewrite (describe_table_dict env f df items _ Hai Hmet). reflexivity.
Qed.

Lemma object_fields_defaulted_witness :
  exists metrics,
    compute_metrics Demo.env_partial Demo.table = inr metrics
    /\ fst (dataset_description Demo.env_partial Demo.request)
       = mkResponse
           (PDict [ ("status", PStr "success");
                    ("timestamp", PStr "2025-01-01T12:00:00.000000");
                    ("filename", PStr "data.csv");
                    ("dataset_description", PStr "");
                    ("key_insights", PList [PStr "Three rows"]);
                    ("data_quality", PDict []);
                    ("recommendations", PList []);
                    ("metrics", metrics_data metrics) ])
           200.
Proof.
  apply (object_fields_defaulted Demo.env_partial Demo.request Demo.upload
           Demo.table [("key_insights", PList [PStr "Three rows"])]);
    reflexivity.
Defined.

(** C10.  When the attempt succeeds and the parsed reply is not a JSON
    object, the handler answers 500 with a body that holds the field
    [error] only: neither the fallback narrative nor a success with
    defaults. *)
Theorem non_object_reply_500 (env : Env) (request : Request)
  (f : UploadedFile) (df : DataFrame) (a : pyval) :
  method request = POST ->
  files_getitem "file" (FILES request) = Some f ->
  PyStr.endswith ".csv" (name f) = true ->
  read_csv env f = inr df ->
  Pandas.empty df = false ->
  fst (ai_attempt env (get_dataset_info env df)) = inr a ->
  is_dict a = false ->
  fst (dataset_description env request)
  = mkResponse
      (PDict [("error", PStr ("An error occurred: '" ++ type_name a
                              ++ "' object has no attribute 'get'"))])
      500.
Proof.
  intros Hm Hf Hext Hcsv Hne Hai Hd.
  rewrite (dataset_description_post env request Hm).
  rewrite (post_body_valid env request f df Hf Hext Hcsv Hne).
  apply (analyze_succeeded env _ df) in Hai.
  rewrite (describe_table_not_dict env f df a Hai Hd). reflexivity.
Qed.

Lemma non_object_reply_500_witness :
  fst (dataset_description Demo.env_array Demo.request)
  = mkResponse
      (PDict [("error",
               PStr "An error occurred: 'list' object has no attribute 'get'")])
      500.
Proof.
  apply (non_object_reply_500 Demo.env_array Demo.request Demo.upload
           Demo.table (PList [])); reflexivity.
Defined.

(* ================================================================== *)
(** * Further properties *)
(* ================================================================== *)

(** ** The answers of the handler *)

Lemma snd_bind {A B : Type} (m : M A) (f : A -> M B) :
  snd (bind m f)
  = match fst m with
    | inl e => snd m
    | inr a => (snd m ++ snd (f a))%list
    end.
Proof.
  destruct m as [[e|a] t]; cbn; [reflexivity|].
  destruct (f a); reflexivity.
Qed.

Lemma files_contains_getitem (key : string) (files : list (string * UploadedFile)) :
  files_contains key files = true -> exists f, files_getitem key files = Some f.
Proof.
  unfold files_contains.
  induction files as [|[k f'] files IH]; cbn; [discriminate|].
  intros H. destruct (files_getitem key files) as [f''|]; [eauto|].
  destruct (String.eqb key k); [eauto|].
  cbn in H. destruct (IH H) as [f Hf]. discriminate Hf.
Qed.

(** An upload fails a validation or passes the four of them. *)
Lemma upload_cases (env : Env) (request : Request) :
  validation_failure env request
  \/ exists f df, valid_upload env request f df.
Proof.
  destruct (files_contains "file" (FILES request)) eqn:Hc;
    [|left; now apply MissingFile].
  destruct (files_contains_getitem _ _ Hc) as [f Hf].
  destruct (PyStr.endswith ".csv" (name f)) eqn:Hext;
    [|left; now apply (InvalidFileType _ _ f)].
  destruct (read_csv env f) as [e|df] eqn:Hcsv;
    [left; now apply (ParseError _ _ f e)|].
  destruct (Pandas.empty df) eqn:Hemp;
    [left; now apply (EmptyTable _ _ f df)|].
  right. exists f, df. repeat split; assumption.
Qed.

(** The two are exclusive. *)
Lemma valid_not_failure (env : Env) (request : Request) (f : UploadedFile)
  (df : DataFrame) :
  valid_upload env request f df -> validation_failure env request -> False.
Proof.
  intros (Hf & Hext & Hcsv & Hne) Hv.
  destruct Hv as [Hno | f' Hf' Hext' | f' e Hf' Hext' Hcsv'
                 | f' df' Hf' Hext' Hcsv' Hemp].
  - rewrite (files_getitem_contains _ _ _ Hf) in Hno. discriminate.
  - congruence.
  - congruence.
  - assert (f' = f) by congruence. subst f'.
    assert (df' = df) by congruence. subst df'. congruence.
Qed.

(** The analysis of a table that is not empty returns: what the remote
    model replied, or the fallback. *)
Lemma analyze_returns (env : Env) (dataset_info : DatasetInfo) (df : DataFrame) :
  Pandas.empty df = false ->
  match fst (ai_attempt env dataset_info) with
  | inr a => fst (analyze_with_gemini env dataset_info df) = inr a
  | inl e => exists items,
      fst (analyze_with_gemini env dataset_info df) = inr (PDict items)
  end.
Proof.
  intros Hne.
  destruct (fst (ai_attempt env dataset_info)) as [e|a] eqn:Hai.
  - rewrite (analyze_failed env dataset_info df e Hai).
    destruct (missing_percent_defined df Hne) as [percent Hp].
    destruct (fallback_eq df e percent Hp) as (d & c & Hfb).
    rewrite Hfb. eauto.
  - exact (analyze_succeeded env dataset_info df a Hai).
Qed.

(** The status of a valid upload: 500 when the remote model replied with
    a value that is not an object, 200 otherwise. *)
Lemma valid_upload_status (env : Env) (request : Request) (f : UploadedFile)
  (df : DataFrame) :
  method request = POST ->
  valid_upload env request f df ->
  status_code (fst (dataset_description env request))
  = match fst (ai_attempt env (get_dataset_info env df)) with
    | inr a => if is_dict a then 200 else 500
    | inl _ => 200
    end.
Proof.
  intros Hm (Hf & Hext & Hcsv & Hne).
  rewrite (dataset_description_post env request Hm).
  rewrite (post_body_valid env request f df Hf Hext Hcsv Hne).
  destruct (compute_metrics_defined env df) as [mb Hmet].
  pose proof (analyze_returns env (get_dataset_info env df) df Hne) as Ha.
  destruct (fst (ai_attempt env (get_dataset_info env df))) as [e|a].
  - destruct Ha as [items Ha].
    rewrite (describe_table_dict env f df items _ Ha Hmet). reflexivity.
  - destruct (is_dict a) eqn:Hd.
    + destruct a; try discriminate Hd.
      rewrite (describe_table_dict env f df _ _ Ha Hmet). reflexivity.
    + rewrite (describe_table_not_dict env f df a Ha Hd). reflexivity.
Qed.

(** A refused upload is answered 400 and leaves no trace. *)
Lemma refused_upload (env : Env) (request : Request) :
  method request = POST ->
  validation_failure env request ->
  status_code (fst (dataset_description env request)) = 400
  /\ snd (dataset_description env request) = [].
Proof.
  intros Hm Hv. unfold dataset_description, post_body. rewrite Hm.
  destruct Hv as [Hno | f Hf Hext | f e Hf Hext Hcsv | f df Hf Hext Hcsv Hemp].
  - rewrite Hno. split; reflexivity.
  - rewrite (files_getitem_contains _ _ _ Hf), Hf. cbn. rewrite Hext.
    split; reflexivity.
  - rewrite (files_getitem_contains _ _ _ Hf), Hf. cbn. rewrite Hext, Hcsv.
    split; reflexivity.
  - rewrite (files_getitem_contains _ _ _ Hf), Hf. cbn.
    rewrite Hext, Hcsv, Hemp. split; reflexivity.
Qed.

Lemma get_response (env : Env) (request : Request) :
  method request = GET ->
  dataset_description env request = (mkResponse help_data 200, []).
Proof. intros Hm. unfold dataset_description. rewrite Hm. reflexivity. Qed.

Lemma method_cases (request : Request) :
  method request = GET \/ method request = POST.
Proof. destruct (method request); auto. Qed.

(** X1.  The handler answers 400 exactly to the POST requests whose upload
    fails one of the four validations. *)
Theorem status_400_iff_validation_failure (env : Env) (request : Request) :
  status_code (fst (dataset_description env request)) = 400
  <-> method request = POST /\ validation_failure env request.
Proof.
  split.
  - intros Hs. destruct (method_cases request) as [Hm|Hm].
    + rewrite (get_response env request Hm) in Hs. discriminate.
    + split; [exact Hm|].
      destruct (upload_cases env request) as [Hv|(f & df & Hv)];
        [exact Hv|exfalso].
      rewrite (valid_upload_status env request f df Hm Hv) in Hs.
      destruct (fst (ai_attempt env (get_dataset_info env df))) as [e|a];
        [discriminate|].
      destruct (is_dict a); discriminate.
  - intros [Hm Hv]. exact (proj1 (refused_upload env request Hm Hv)).
Qed.

(** Once [request.FILES] has returned, the handler answers 500 exactly
    when the upload is valid and the remote model replies with JSON that
    is not an object. *)
Lemma parsed_status_500_iff (env : Env) (request : Request) :
  status_code (fst (dataset_description env request)) = 500
  <-> method request = POST
      /\ exists f df a,
           valid_upload env request f df
           /\ fst (ai_attempt env (get_dataset_info env df)) = inr a
           /\ is_dict a = false.
Proof.
  split.
  - intros Hs. destruct (method_cases request) as [Hm|Hm].
    + rewrite (get_response env request Hm) in Hs. discriminate.
    + split; [exact Hm|].
      destruct (upload_cases env request) as [Hv|(f & df & Hv)].
      * rewrite (proj1 (refused_upload env request Hm Hv)) in Hs. discriminate.
      * rewrite (valid_upload_status env request f df Hm Hv) in Hs.
        destruct (fst (ai_attempt env (get_dataset_info env df)))
          as [e|a] eqn:Hai; [discriminate|].
        destruct (is_dict a) eqn:Hd; [discriminate|].
        exists f, df, a. auto.
  - intros (Hm & f & df & a & Hv & Hai & Hd).
    rewrite (valid_upload_status env request f df Hm Hv), Hai, Hd. reflexivity.
Qed.

(** X2.  The handler answers 500 exactly to the POST requests whose body
    cannot be parsed when [request.FILES] is first read, and to those
    whose upload is valid and for which the remote model replies with JSON
    that is not an object: with the summaries and the metrics of pandas
    and the prints returning, as the model has them, nothing else reaches
    the outer [except]. *)
Theorem status_500_iff_unparsed_or_reply_not_object (env : Env)
  (incoming : Incoming) :
  status_code (fst (dataset_description_view env incoming)) = 500
  <-> incoming_method incoming = POST
      /\ ((exists e, incoming_FILES incoming = inl e)
          \/ exists files f df a,
               incoming_FILES incoming = inr files
               /\ valid_upload env (mkRequest POST files) f df
               /\ fst (ai_attempt env (get_dataset_info env df)) = inr a
               /\ is_dict a = false).
Proof.
  unfold dataset_description_view.
  destruct (incoming_method incoming) eqn:Hm.
  - split; [discriminate|]. intros [Hp _]. discriminate Hp.
  - destruct (incoming_FILES incoming) as [e|files] eqn:Hfiles.
    + split; [|reflexivity]. intros _. split; [reflexivity|]. left. eauto.
    + rewrite parsed_status_500_iff. cbn [method]. split.
      * intros (_ & f & df & a & H). split; [reflexivity|]. right.
        exists files, f, df, a. split; [reflexivity | exact H].
      * intros (_ & [[e He]|(files' & f & df & a & Hf & H)]);
          [discriminate He|].
        injection Hf as <-. split; [reflexivity|]. eauto.
Qed.

(** A POST request with a body that is not multipart is answered 500, and
    a GET request with the same body 200. *)
Example unparsed_body :
  let broken m := mkIncoming m (inl "Multipart form parse error") in
  fst (dataset_description_view Demo.env_down (broken POST))
  = mkResponse
      (PDict [("error", PStr "An error occurred: Multipart form parse error")])
      500
  /\ status_code (fst (dataset_description_view Demo.env_down (broken GET)))
     = 200.
Proof. split; reflexivity. Qed.

(** X3.  The handler answers 200 exactly to the GET requests and to the
    POST requests whose upload is valid and for which the remote model
    fails or replies with a JSON object (the summaries and the metrics of
    pandas returning, as the environment has them). *)
Theorem status_200_iff_valid_and_object (env : Env) (request : Request) :
  status_code (fst (dataset_description env request)) = 200
  <-> method request = GET
      \/ exists f df,
           valid_upload env request f df
           /\ forall a, fst (ai_attempt env (get_dataset_info env df)) = inr a ->
                        is_dict a = true.
Proof.
  split.
  - intros Hs. destruct (method_cases request) as [Hm|Hm]; [now left|right].
    destruct (upload_cases env request) as [Hv|(f & df & Hv)].
    + rewrite (proj1 (refused_upload env request Hm Hv)) in Hs. discriminate.
    + exists f, df. split; [exact Hv|]. intros a Hai.
      rewrite (valid_upload_status env request f df Hm Hv), Hai in Hs.
      destruct (is_dict a); [reflexivity | discriminate].
  - intros [Hm|(f & df & Hv & Hobj)].
    + rewrite (get_response env request Hm). reflexivity.
    + destruct (method_cases request) as [Hm|Hm];
        [rewrite (get_response env request Hm); reflexivity|].
      rewrite (valid_upload_status env request f df Hm Hv).
      destruct (fst (ai_attempt env (get_dataset_info env df))) as [e|a];
        [reflexivity|].
      rewrite (Hobj a eq_refl). reflexivity.
Qed.

(** The body of a success. *)
Lemma success_body (env : Env) (request : Request) :
  method request = POST ->
  status_code (fst (dataset_description env request)) = 200 ->
  exists f df items m,
    valid_upload env request f df
    /\ compute_metrics env df = inr m
    /\ fst (analyze_with_gemini env (get_dataset_info env df) df)
       = inr (PDict items)
    /\ fst (post_body env request)
       = inr (mkResponse
                (response_data env f
                   (get_default items "dataset_description" (PStr ""))
                   (get_default items "key_insights" (PList []))
                   (get_default items "data_quality" (PDict []))
                   (get_default items "recommendations" (PList []))
                   m)
                HTTP_200_OK).
Proof.
  intros Hm Hs.
  destruct (upload_cases env request) as [Hv|(f & df & Hv)].
  { rewrite (proj1 (refused_upload env request Hm Hv)) in Hs. discriminate. }
  rewrite (valid_upload_status env request f df Hm Hv) in Hs.
  destruct (compute_metrics_defined env df) as [mb Hmet].
  pose proof Hv as (Hf & Hext & Hcsv & Hne).
  pose proof (analyze_returns env (get_dataset_info env df) df Hne) as Ha.
  assert (Hitems : exists items,
             fst (analyze_with_gemini env (get_dataset_info env df) df)
             = inr (PDict items)).
  { destruct (fst (ai_attempt env (get_dataset_info env df))) as [e|a];
      [exact Ha|].
    destruct a; try discriminate Hs. eauto. }
  destruct Hitems as [items Hitems].
  exists f, df, items. eexists. split; [exact Hv|]. split; [exact Hmet|].
  split; [exact Hitems|].
  rewrite (post_body_valid env request f df Hf Hext Hcsv Hne).
  exact (describe_table_dict env f df items _ Hitems Hmet).
Qed.

(** X4.  A success reports the upload: the body holds the status
    [success], the name of the uploaded file, the time of the assembly,
    and metrics with the numbers of rows and of columns and the column
    labels of the table that was read. *)
Theorem success_reports_table (env : Env) (request : Request) :
  method request = POST ->
  status_code (fst (dataset_description env request)) = 200 ->
  let body := data (fst (dataset_description env request)) in
  exists f df metrics,
    valid_upload env request f df
    /\ py_item "status" body = Some (PStr "success")
    /\ py_item "timestamp" body = Some (PStr (now_isoformat env))
    /\ py_item "filename" body = Some (PStr (name f))
    /\ py_item "metrics" body = Some metrics
    /\ py_item "total_rows" metrics = Some (PInt (Z.of_nat (nrows df)))
    /\ py_item "total_columns" metrics
       = Some (PInt (Z.of_nat (List.length (columns df))))
    /\ py_item "column_names" metrics
       = Some (PList (map (fun c => PStr (col_name c)) (columns df))).
Proof.
  intros Hm Hs body.
  destruct (success_body env request Hm Hs)
    as (f & df & items & m & Hv & Hmet & _ & Hbody).
  destruct (compute_metrics_inv env df m Hmet)
    as (Hrows & Hcols & Hnames & _).
  exists f, df, (metrics_data m). split; [exact Hv|].
  unfold body. rewrite (dataset_description_post env request Hm), Hbody.
  cbn. rewrite Hrows, Hcols, Hnames.
  unfold PStrs, Pandas.columns_tolist. rewrite map_map.
  repeat split.
Qed.

Lemma success_reports_table_witness :
  let body := data (fst (dataset_description Demo.env_down Demo.request)) in
  exists f df metrics,
    valid_upload Demo.env_down Demo.request f df
    /\ py_item "status" body = Some (PStr "success")
    /\ py_item "timestamp" body = Some (PStr (now_isoformat Demo.env_down))
    /\ py_item "filename" body = Some (PStr (name f))
    /\ py_item "metrics" body = Some metrics
    /\ py_item "total_rows" metrics = Some (PInt (Z.of_nat (nrows df)))
    /\ py_item "total_columns" metrics
       = Some (PInt (Z.of_nat (List.length (columns df))))
    /\ py_item "column_names" metrics
       = Some (PList (map (fun c => PStr (col_name c)) (columns df))).
Proof.
  exact (success_reports_table Demo.env_down Demo.request eq_refl eq_refl).
Defined.

(** The trace of the analysis: the call, and the line printed when the
    attempt raises. *)
Lemma analyze_trace (env : Env) (dataset_info : DatasetInfo) (df : DataFrame) :
  snd (analyze_with_gemini env dataset_info df)
  = EvGenerate (build_prompt dataset_info)
    :: match fst (ai_attempt env dataset_info) with
       | inl e => [EvPrint ("Gemini API Error: " ++ e)]
       | inr _ => []
       end.
Proof.
  unfold analyze_with_gemini, try_except, ai_attempt, bind, emit, lift, ret.
  destruct (generate_content env (build_prompt dataset_info)) as [e|text]; cbn.
  - destruct (fallback df e); reflexivity.
  - destruct (json_loads env (strip_fences (PyStr.strip text))) as [e|a]; cbn;
      [|reflexivity].
    destruct (fallback df e); reflexivity.
Qed.

(** The trace of a valid upload: the trace of the analysis, and the
    response printed when there is one. *)
Lemma describe_table_trace (env : Env) (f : UploadedFile) (df : DataFrame) :
  snd (describe_table env f df)
  = (snd (analyze_with_gemini env (get_dataset_info env df) df)
     ++ match fst (describe_table env f df) with
        | inr response =>
            [EvPrintData ("Check Point the response data is:" ++ PyStr.nl)
               (data response)]
        | inl _ => []
        end)%list.
Proof.
  unfold describe_table.
  destruct (analyze_with_gemini env (get_dataset_info env df) df) as [[e|a] t];
    cbn; [now rewrite app_nil_r|].
  destruct (compute_metrics env df) as [e|m]; cbn; [now rewrite app_nil_r|].
  destruct a; cbn; rewrite ?app_nil_r; reflexivity.
Qed.

Lemma valid_upload_trace (env : Env) (request : Request) (f : UploadedFile)
  (df : DataFrame) :
  method request = POST ->
  valid_upload env request f df ->
  snd (dataset_description env request)
  = (EvGenerate (build_prompt (get_dataset_info env df))
     :: match fst (ai_attempt env (get_dataset_info env df)) with
        | inl e => [EvPrint ("Gemini API Error: " ++ e)]
        | inr _ => []
        end
     ++ match fst (post_body env request) with
        | inr response =>
            [EvPrintData ("Check Point the response data is:" ++ PyStr.nl)
               (data response)]
        | inl _ => []
        end)%list.
Proof.
  intros Hm (Hf & Hext & Hcsv & Hne).
  unfold dataset_description. rewrite Hm.
  rewrite (post_body_valid env request f df Hf Hext Hcsv Hne).
  pose proof (describe_table_trace env f df) as Ht.
  rewrite analyze_trace in Ht.
  destruct (describe_table env f df) as [[e|r] t]; cbn [fst snd] in *;
    exact Ht.
Qed.

(** X5.  The remote model is called at most once for a request, and it is
    called exactly when a POST request passes the validations; the prompt
    is then the one built from the summaries of the table that was
    read. *)
Theorem remote_call_at_most_once (env : Env) (request : Request) :
  let trace := snd (dataset_description env request) in
  (count_generate trace <= 1)%nat
  /\ (count_generate trace = 1%nat
      <-> method request = POST /\ exists f df, valid_upload env request f df)
  /\ (forall prompt, In (EvGenerate prompt) trace ->
        exists f df, valid_upload env request f df
                     /\ prompt = build_prompt (get_dataset_info env df)).
Proof.
  cbv zeta.
  destruct (method_cases request) as [Hm|Hm].
  { rewrite (get_response env request Hm). cbn. split; [lia|]. split.
    - split; [discriminate|]. intros [Hp _]. congruence.
    - contradiction. }
  destruct (upload_cases env request) as [Hv|(f & df & Hv)].
  { rewrite (proj2 (refused_upload env request Hm Hv)). cbn. split; [lia|].
    split.
    - split; [discriminate|]. intros (_ & f & df & Hv').
      destruct (valid_not_failure env request f df Hv' Hv).
    - contradiction. }
  rewrite (valid_upload_trace env request f df Hm Hv).
  assert (Hcount :
    count_generate
      (EvGenerate (build_prompt (get_dataset_info env df))
       :: match fst (ai_attempt env (get_dataset_info env df)) with
          | inl e => [EvPrint ("Gemini API Error: " ++ e)]
          | inr _ => []
          end
       ++ match fst (post_body env request) with
          | inr response =>
              [EvPrintData ("Check Point the response data is:" ++ PyStr.nl)
                 (data response)]
          | inl _ => []
          end)%list = 1%nat).
  { destruct (fst (ai_attempt env (get_dataset_info env df)));
      destruct (fst (post_body env request)); reflexivity. }
  rewrite Hcount. split; [lia|]. split.
  - split; [|reflexivity]. intros _. split; [exact Hm|]. eauto.
  - intros prompt Hin. exists f, df. split; [exact Hv|].
    destruct Hin as [Hin|Hin]; [congruence|exfalso].
    apply in_app_or in Hin.
    destruct (fst (ai_attempt env (get_dataset_info env df)));
      destruct (fst (post_body env request));
      cbn in Hin; intuition discriminate.
Qed.

(** X6.  A POST request that succeeds prints, as the last line of its
    run, the body of the response that it returns. *)
Theorem success_prints_response (env : Env) (request : Request) :
  method request = POST ->
  status_code (fst (dataset_description env request)) = 200 ->
  exists before,
    snd (dataset_description env request)
    = (before
       ++ [EvPrintData ("Check Point the response data is:" ++ PyStr.nl)
             (data (fst (dataset_description env request)))])%list.
Proof.
  intros Hm Hs.
  destruct (success_body env request Hm Hs)
    as (f & df & items & m & Hv & _ & _ & Hbody).
  rewrite (valid_upload_trace env request f df Hm Hv).
  rewrite (dataset_description_post env request Hm), Hbody.
  eexists (_ :: _). cbn [app]. reflexivity.
Qed.

Lemma success_prints_response_witness :
  exists before,
    snd (dataset_description Demo.env_partial Demo.request)
    = (before
       ++ [EvPrintData ("Check Point the response data is:" ++ PyStr.nl)
             (data (fst (dataset_description Demo.env_partial Demo.request)))])%list.
Proof.
  exact (success_prints_response Demo.env_partial Demo.request eq_refl eq_refl).
Defined.

(** X7.  The handler prints the message of a failure of the remote model,
    in full, exactly when the attempt of a valid upload raises. *)
Theorem failure_is_logged (env : Env) (request : Request) (line : string) :
  In (EvPrint line) (snd (dataset_description env request))
  <-> method request = POST
      /\ exists f df e,
           valid_upload env request f df
           /\ fst (ai_attempt env (get_dataset_info env df)) = inl e
           /\ line = "Gemini API Error: " ++ e.
Proof.
  destruct (method_cases request) as [Hm|Hm].
  { rewrite (get_response env request Hm). cbn. split; [contradiction|].
    intros [Hp _]. congruence. }
  destruct (upload_cases env request) as [Hv|(f & df & Hv)].
  { rewrite (proj2 (refused_upload env request Hm Hv)). cbn.
    split; [contradiction|]. intros (_ & f & df & e & Hv' & _).
    destruct (valid_not_failure env request f df Hv' Hv). }
  rewrite (valid_upload_trace env request f df Hm Hv). split.
  - intros Hin. split; [exact Hm|]. exists f, df.
    destruct Hin as [Hin|Hin]; [discriminate|].
    apply in_app_or in Hin.
    destruct (fst (ai_attempt env (get_dataset_info env df))) as [e|a].
    + exists e. split; [exact Hv|]. split; [reflexivity|].
      destruct Hin as [[Hin|[]]|Hin]; [congruence|].
      destruct (fst (post_body env request)); cbn in Hin;
        intuition discriminate.
    + exfalso. destruct Hin as [[]|Hin].
      destruct (fst (post_body env request)); cbn in Hin;
        intuition discriminate.
  - intros (_ & f' & df' & e & Hv' & Hai & ->).
    destruct Hv as (Hf & Hext & Hcsv & Hne), Hv' as (Hf' & _ & Hcsv' & _).
    assert (f' = f) by congruence. subst f'.
    assert (df' = df) by congruence. subst df'.
    rewrite Hai. right. apply in_or_app. left. now left.
Qed.

(** X8.  An upload refused for its missing file or for its extension is
    answered without the environment: the file is not parsed, the remote
    model is not called, the clock is not read. *)
Theorem early_refusal_ignores_environment (env1 env2 : Env) (request : Request) :
  method request = POST ->
  (files_contains "file" (FILES request) = false
   \/ exists f, files_getitem "file" (FILES request) = Some f
                /\ PyStr.endswith ".csv" (name f) = false) ->
  dataset_description env1 request = dataset_description env2 request.
Proof.
  intros Hm H. unfold dataset_description, post_body. rewrite Hm.
  destruct H as [Hno|(f & Hf & Hext)].
  - rewrite Hno. reflexivity.
  - rewrite (files_getitem_contains _ _ _ Hf), Hf. cbn. rewrite Hext.
    reflexivity.
Qed.

Lemma early_refusal_ignores_environment_witness :
  dataset_description Demo.env_down Demo.request_txt
  = dataset_description Demo.env_array Demo.request_txt.
Proof.
  apply (early_refusal_ignores_environment Demo.env_down Demo.env_array
           Demo.request_txt); [reflexivity|].
  right. exists Demo.upload_txt. split; reflexivity.
Defined.

(** ** The strings of the handler *)

Section MoreStringFacts.
Import PyStr.

Lemma app_empty_r (s : string) : s ++ "" = s.
Proof. induction s as [|c s IH]; cbn; [reflexivity | now rewrite IH]. Qed.

Lemma app_assoc_str (a b c : string) : (a ++ b) ++ c = a ++ b ++ c.
Proof. induction a as [|x a IH]; cbn; [reflexivity | now rewrite IH]. Qed.

Lemma length_app_str (a b : string) :
  String.length (a ++ b) = (String.length a + String.length b)%nat.
Proof. induction a as [|x a IH]; cbn; [reflexivity | now rewrite IH]. Qed.

Lemma rev_append_app (s acc : string) : rev_append s acc = rev s ++ acc.
Proof.
  unfold rev. revert acc.
  induction s as [|c s IH]; intros acc; cbn [rev_append]; [reflexivity|].
  rewrite (IH (String c acc)), (IH (String c "")), app_assoc_str. reflexivity.
Qed.

Lemma rev_cons (c : ascii) (s : string) : rev (String c s) = rev s ++ String c "".
Proof. unfold rev at 1. cbn [rev_append]. apply rev_append_app. Qed.

Lemma rev_app (a b : string) : rev (a ++ b) = rev b ++ rev a.
Proof.
  induction a as [|c a IH]; cbn [append].
  - now rewrite app_empty_r.
  - now rewrite !rev_cons, IH, app_assoc_str.
Qed.

Lemma rev_involutive (s : string) : rev (rev s) = s.
Proof.
  induction s as [|c s IH]; [reflexivity|].
  now rewrite rev_cons, rev_app, IH.
Qed.

(** [prefix p s] holds when [s] begins with [p]. *)
Lemma prefix_iff (p s : string) :
  String.prefix p s = true <-> exists t, s = p ++ t.
Proof.
  revert p. induction s as [|b s IH]; intros [|a p]; cbn [String.prefix].
  - split; [exists ""; reflexivity | reflexivity].
  - split; [intros H; discriminate H|]. intros [t Ht]. discriminate Ht.
  - split; [eexists; reflexivity | reflexivity].
  - destruct (ascii_dec a b) as [->|Hab]; cbv beta iota.
    + rewrite IH. split; intros [t Ht]; exists t.
      * cbn. now rewrite Ht.
      * cbn in Ht. now injection Ht.
    + split; [intros H; discriminate H|]. intros [t Ht]. cbn in Ht.
      congruence.
Qed.

(** X9.  The extension check accepts exactly the names that end with the
    extension: [s.endswith(p)] holds when [s] is some text followed by
    [p], letter for letter. *)
Theorem endswith_iff (p s : string) :
  endswith p s = true <-> exists t, s = t ++ p.
Proof.
  unfold endswith. rewrite prefix_iff. split; intros [t Ht].
  - exists (rev t). rewrite <- (rev_involutive s), Ht, rev_app, rev_involutive.
    reflexivity.
  - exists (rev t). now rewrite Ht, rev_app.
Qed.

Lemma remove_from_skip (old t s : string) :
  remove_from old (String.length t) (t ++ s) = remove_from old 0 s.
Proof.
  induction t as [|c t IH]; cbn [String.length append]; [reflexivity|].
  destruct s as [|x s'] eqn:Hs.
  - rewrite app_empty_r. cbn [remove_from]. rewrite app_empty_r in IH.
    exact IH.
  - cbn [remove_from]. exact IH.
Qed.

(** An occurrence at the head is removed. *)
Lemma remove_head (c : ascii) (old' s : string) :
  remove (String c old') (String c old' ++ s) = remove (String c old') s.
Proof.
  unfold remove. cbn [append remove_from].
  assert (Hp : String.prefix (String c old') (String c (old' ++ s)) = true)
    by (apply prefix_iff; exists s; reflexivity).
  rewrite Hp. cbn [String.length Nat.pred]. apply remove_from_skip.
Qed.

(** Text without a backtick holds no occurrence of a fence. *)
Lemma remove_backtick_free (old' a b : string) :
  backtick_free a = true ->
  remove (String "`" old') (a ++ b) = a ++ remove (String "`" old') b.
Proof.
  unfold remove. induction a as [|x a IH]; intros Ha; [reflexivity|].
  cbn [backtick_free] in Ha. apply andb_true_iff in Ha as [Hx Ha].
  cbn [append remove_from String.prefix].
  destruct (ascii_dec "`" x) as [<-|_]; [discriminate Hx|].
  now rewrite (IH Ha).
Qed.

Lemma lstrip_app_space (x : string) (w : ascii) :
  isspace w = true ->
  lstrip (x ++ String w "")
  = match lstrip x with
    | EmptyString => EmptyString
    | String _ _ => lstrip x ++ String w ""
    end.
Proof.
  intros Hw. induction x as [|c x IH]; cbn [append lstrip].
  - now rewrite Hw.
  - destruct (isspace c); [exact IH | reflexivity].
Qed.

(** Stripping ignores a space at either end. *)
Lemma strip_spaces (v w : ascii) (x : string) :
  isspace v = true -> isspace w = true ->
  strip (String v (x ++ String w "")) = strip x.
Proof.
  intros Hv Hw. unfold strip. cbn [lstrip]. rewrite Hv.
  rewrite (lstrip_app_space x w Hw).
  destruct (lstrip x) as [|c y]; [reflexivity|].
  rewrite rev_app. cbn [rev rev_append append lstrip]. rewrite Hw.
  reflexivity.
Qed.

(** Stripping leaves a text that begins and ends with other characters
    than spaces as it is. *)
Lemma strip_fixed (c d : ascii) (x y s : string) :
  s = String c x -> rev s = String d y ->
  isspace c = false -> isspace d = false ->
  strip s = s.
Proof.
  intros Hs Hr Hc Hd. unfold strip.
  assert (Hl : lstrip s = s) by (rewrite Hs; cbn [lstrip]; now rewrite Hc).
  rewrite Hl, Hr. cbn [lstrip]. rewrite Hd, <- Hr. apply rev_involutive.
Qed.

Lemma length_take (n : nat) (s : string) : (String.length (take n s) <= n)%nat.
Proof.
  revert s. induction n as [|n IH]; intros [|c s]; cbn; try lia.
  specialize (IH s). lia.
Qed.

End MoreStringFacts.

(** The fences around a text without backticks come off. *)
Lemma fence_round_trip (body : string) :
  backtick_free body = true ->
  strip_fences ("```json" ++ PyStr.nl ++ body ++ PyStr.nl ++ "```")
  = PyStr.strip body
  /\ strip_fences ("```" ++ PyStr.nl ++ body ++ PyStr.nl ++ "```")
     = PyStr.strip body.
Proof.
  intros Hb.
  assert (Hfree : backtick_free (PyStr.nl ++ body ++ PyStr.nl) = true).
  { cbn. clear -Hb. induction body as [|c body IH]; [reflexivity|].
    cbn in *. apply andb_true_iff in Hb as [Hc Hb]. now rewrite Hc, IH. }
  assert (Hstrip : PyStr.strip (PyStr.nl ++ body ++ PyStr.nl) = PyStr.strip body)
    by (apply (strip_spaces "010" "010"); reflexivity).
  split.
  - unfold strip_fences.
    change (PyStr.startswith "```json"
              ("```json" ++ PyStr.nl ++ body ++ PyStr.nl ++ "```")) with true.
    cbv iota. rewrite (remove_head "`" "``json").
    rewrite <- (app_assoc_str body), <- (app_assoc_str PyStr.nl).
    rewrite (remove_backtick_free "``json" _ "```" Hfree).
    change (PyStr.remove "```json" "```") with "```".
    rewrite (remove_backtick_free "``" _ "```" Hfree).
    change (PyStr.remove "```" "```") with "".
    rewrite app_empty_r. exact Hstrip.
  - unfold strip_fences.
    change (PyStr.startswith "```json"
              ("```" ++ PyStr.nl ++ body ++ PyStr.nl ++ "```")) with false.
    change (PyStr.startswith "```"
              ("```" ++ PyStr.nl ++ body ++ PyStr.nl ++ "```")) with true.
    cbv iota. rewrite (remove_head "`" "``").
    rewrite <- (app_assoc_str body), <- (app_assoc_str PyStr.nl).
    rewrite (remove_backtick_free "``" _ "```" Hfree).
    change (PyStr.remove "```" "```") with "".
    rewrite app_empty_r. exact Hstrip.
Qed.

(** X10.  A reply that the remote model wraps in a code fence, with
    [```json] or [```] on the line before the text and [```] on the line
    after it, is parsed as the text alone, stripped, when the text holds
    no backtick. *)
Theorem fenced_reply_parsed_as_body (env : Env) (dataset_info : DatasetInfo)
  (body : string) :
  backtick_free body = true ->
  generate_content env (build_prompt dataset_info)
  = inr ("```json" ++ PyStr.nl ++ body ++ PyStr.nl ++ "```")
  \/ generate_content env (build_prompt dataset_info)
     = inr ("```" ++ PyStr.nl ++ body ++ PyStr.nl ++ "```") ->
  fst (ai_attempt env dataset_info) = json_loads env (PyStr.strip body).
Proof.
  intros Hb Hgen. destruct (fence_round_trip body Hb) as [Hjson Hplain].
  assert (Hs : forall tag,
             PyStr.strip (String "`" tag ++ PyStr.nl ++ body ++ PyStr.nl ++ "```")
             = String "`" tag ++ PyStr.nl ++ body ++ PyStr.nl ++ "```").
  { intros tag. eapply (strip_fixed "`" "`");
      [reflexivity | rewrite !rev_app; reflexivity | reflexivity | reflexivity]. }
  unfold ai_attempt, emit, lift, bind, ret.
  destruct Hgen as [Hgen|Hgen]; rewrite Hgen.
  - rewrite (Hs "``json"), Hjson.
    destruct (json_loads env (PyStr.strip body)); reflexivity.
  - rewrite (Hs "``"), Hplain.
    destruct (json_loads env (PyStr.strip body)); reflexivity.
Qed.

Lemma fenced_reply_parsed_as_body_witness :
  fst (ai_attempt Demo.env_array (get_dataset_info Demo.env_array Demo.table))
  = json_loads Demo.env_array (PyStr.strip "[]").
Proof.
  apply (fenced_reply_parsed_as_body Demo.env_array
           (get_dataset_info Demo.env_array Demo.table) "[]");
    [reflexivity | left; reflexivity].
Defined.

(** X12.  The note about the failure is at most 143 characters long,
    however long the message of the failure: the message is quoted up to
    its first 100 characters. *)
Theorem api_status_bounded (error_msg : string) :
  (String.length (api_status error_msg) <= 143)%nat.
Proof.
  unfold api_status.
  destruct (PyStr.contains "429" error_msg
            || PyStr.contains "quota" (PyStr.lower error_msg)).
  - cbn. lia.
  - rewrite !length_app_str. pose proof (length_take 100 error_msg).
    cbn [String.length]. lia.
Qed.

Section FenceFacts.
Import PyStr.

(** [contains sub s] holds when [sub] occurs in [s]. *)
Lemma contains_iff (sub s : string) :
  contains sub s = true <-> exists a b, s = a ++ sub ++ b.
Proof.
  split.
  - induction s as [|c s IH]; cbn [contains]; intros H;
      apply orb_true_iff in H as [H|H].
    + apply prefix_iff in H as [t Ht]. exists "", t. exact Ht.
    + discriminate H.
    + apply prefix_iff in H as [t Ht]. exists "", t. exact Ht.
    + destruct (IH H) as (a & b & ->). exists (String c a), b. reflexivity.
  - intros (a & b & ->). induction a as [|c a IH].
    + cbn [append]. destruct (sub ++ b) eqn:E; cbn [contains];
        apply orb_true_iff; left; apply prefix_iff; exists b; now rewrite E.
    + cbn [append contains]. rewrite IH. apply orb_true_r.
Qed.

Lemma lower_app (a b : string) : lower (a ++ b) = lower a ++ lower b.
Proof. induction a as [|c a IH]; cbn; [reflexivity | now rewrite IH]. Qed.

Lemma lstrip_suffix (s : string) : exists l, s = l ++ lstrip s.
Proof.
  induction s as [|c s [l Hl]]; [exists ""; reflexivity|].
  cbn [lstrip]. destruct (isspace c).
  - exists (String c l). cbn. now rewrite <- Hl.
  - exists "". reflexivity.
Qed.

(** A stripped text is a part of the text. *)
Lemma strip_part (s : string) : exists l r, s = l ++ strip s ++ r.
Proof.
  unfold strip. destruct (lstrip_suffix s) as [l Hl].
  destruct (lstrip_suffix (rev (lstrip s))) as [r' Hr].
  exists l, (rev r'). rewrite <- rev_app, <- Hr, rev_involutive. exact Hl.
Qed.

Lemma contains_strip (sub s : string) :
  contains sub (strip s) = true -> contains sub s = true.
Proof.
  rewrite !contains_iff. intros (a & b & Hab).
  destruct (strip_part s) as (l & r & Hs).
  exists (l ++ a), (b ++ r). rewrite Hs at 1. rewrite Hab.
  now rewrite !app_assoc_str.
Qed.

Lemma prefix_cons_eq (a : ascii) (p s : string) :
  String.prefix (String a p) (String a s) = String.prefix p s.
Proof.
  cbn [String.prefix]. destruct (ascii_dec a a); [reflexivity | contradiction].
Qed.

Lemma prefix_cons_ne (a b : ascii) (p s : string) :
  a <> b -> String.prefix (String a p) (String b s) = false.
Proof.
  intros H. cbn [String.prefix].
  destruct (ascii_dec a b); [contradiction | reflexivity].
Qed.

Lemma remove_no_head (old s : string) (x : ascii) :
  String.prefix old (String x s) = false ->
  remove old (String x s) = String x (remove old s).
Proof. intros Hp. unfold remove. cbn [remove_from]. now rewrite Hp. Qed.

(** After the removal of the fences, a text begins with two backticks
    only if it did. *)
Lemma remove_fence_head (s : string) :
  String.prefix "``" s = false ->
  String.prefix "``" (remove "```" s) = false.
Proof.
  destruct s as [|x s1]; [reflexivity|].
  destruct (ascii_dec "`" x) as [<-|Hx].
  - rewrite prefix_cons_eq. destruct s1 as [|y s2]; [reflexivity|].
    destruct (ascii_dec "`" y) as [<-|Hy];
      [rewrite prefix_cons_eq; destruct s2; intros H; discriminate H|].
    intros _.
    rewrite remove_no_head
      by (rewrite prefix_cons_eq; now apply prefix_cons_ne).
    rewrite remove_no_head by (now apply prefix_cons_ne).
    rewrite prefix_cons_eq. now apply prefix_cons_ne.
  - intros _. rewrite remove_no_head by (now apply prefix_cons_ne).
    now apply prefix_cons_ne.
Qed.

Lemma remove_fence_bounded (n : nat) :
  forall s, (String.length s <= n)%nat ->
            contains "```" (remove "```" s) = false.
Proof.
  induction n as [|n IH]; intros s Hlen.
  - destruct s; [reflexivity | cbn in Hlen; lia].
  - destruct s as [|x s]; [reflexivity|].
    cbn [String.length] in Hlen.
    destruct (String.prefix "```" (String x s)) eqn:Hp.
    + apply prefix_iff in Hp as [t Ht]. rewrite Ht.
      rewrite (remove_head "`" "``" t). apply IH.
      assert (String.length (String x s) = String.length ("```" ++ t))
        by now rewrite Ht.
      cbn in H. lia.
    + assert (Hr : remove "```" (String x s) = String x (remove "```" s)).
      { unfold remove. cbn [remove_from]. now rewrite Hp. }
      rewrite Hr. cbn [contains]. rewrite (IH s ltac:(lia)), orb_false_r.
      cbn [String.prefix] in Hp |- *.
      destruct (ascii_dec "`" x) as [<-|_]; [|reflexivity].
      apply remove_fence_head. exact Hp.
Qed.

(** No fence is left by the removal of the fences. *)
Lemma remove_fence_none (s : string) : contains "```" (remove "```" s) = false.
Proof. exact (remove_fence_bounded (String.length s) s (Nat.le_refl _)). Qed.

End FenceFacts.

(** X11.  Of a reply that begins with a code fence, no sequence of three
    backticks is left in the text that goes to the JSON parser: those
    inside the text are removed with the fences. *)
Theorem no_fence_after_stripping (response_text : string) :
  PyStr.startswith "```" response_text = true ->
  PyStr.contains "```" (strip_fences response_text) = false.
Proof.
  intros Hs. unfold strip_fences. rewrite Hs.
  destruct (PyStr.startswith "```json" response_text);
    apply not_true_is_false; intros H; apply contains_strip in H;
    now rewrite remove_fence_none in H.
Qed.

Lemma no_fence_after_stripping_witness :
  PyStr.contains "```"
    (strip_fences ("```json" ++ PyStr.nl ++ "[" ++ PyStr.dq ++ "a ``` b"
                   ++ PyStr.dq ++ "]" ++ PyStr.nl ++ "```"))
  = false.
Proof. apply no_fence_after_stripping. reflexivity. Defined.

(** X13.  A failure whose message holds [429], or [quota] in any letter
    case, gets the rate-limit note, which does not quote the message. *)
Theorem rate_limit_note (error_msg : string) :
  (exists a b, error_msg = a ++ "429" ++ b)
  \/ (exists a w b, error_msg = a ++ w ++ b /\ PyStr.lower w = "quota") ->
  api_status error_msg = "Rate limit exceeded. Using fallback analysis.".
Proof.
  intros H. unfold api_status.
  assert (Hc : PyStr.contains "429" error_msg
               || PyStr.contains "quota" (PyStr.lower error_msg) = true).
  { apply orb_true_iff. destruct H as [(a & b & ->)|(a & w & b & -> & Hw)].
    - left. apply contains_iff. eauto.
    - right. apply contains_iff. rewrite !lower_app, Hw. eauto. }
  now rewrite Hc.
Qed.

Lemma rate_limit_note_witness :
  api_status "ResourceExhausted: QUOTA exceeded for model"
  = "Rate limit exceeded. Using fallback analysis.".
Proof.
  apply rate_limit_note. right.
  exists "ResourceExhausted: ", "QUOTA", " exceeded for model".
  split; reflexivity.
Defined.

(** ** The tables of the handler *)

(** ** Counts of missing cells *)

Lemma count_null_bounds (c : Column) :
  0 <= Pandas.count_null c <= Z.of_nat (List.length (col_cells c)).
Proof.
  unfold Pandas.count_null.
  pose proof (filter_length_le cell_isnull (col_cells c)). lia.
Qed.

Lemma total_null_upper (df : DataFrame) :
  Forall (fun c => List.length (col_cells c) = nrows df) (columns df) ->
  total_null df <= Pandas.len df * Pandas.len_columns df.
Proof.
  unfold total_null, Pandas.series_sum, Pandas.isnull_sum, Pandas.len,
    Pandas.len_columns, sum_Z.
  induction 1 as [|c cols Hc _ IH]; cbn [map fold_right snd List.length].
  - lia.
  - pose proof (count_null_bounds c) as Hb. rewrite Hc in Hb.
    rewrite Nat2Z.inj_succ. nia.
Qed.

(** X14.  In the metrics of a table (as [pd.read_csv] returns it),
    [missing_values] and [column_types] have the column labels as keys, in
    the order of the columns; every count of [missing_values] lies between
    0 and [total_rows]; and [total_missing] lies between 0 and the number
    of cells, [total_rows * total_columns]. *)
Theorem metrics_counts_bounded (env : Env) (df : DataFrame) (m : Metrics) :
  wf_df df ->
  compute_metrics env df = inr m ->
  PyDict.keys (missing_values m) = column_names m
  /\ PyDict.keys (column_types m) = column_names m
  /\ (forall label n, In (label, n) (missing_values m) -> 0 <= n <= total_rows m)
  /\ 0 <= total_missing m <= total_rows m * total_columns m.
Proof.
  intros [Hcells Hnd] Hm.
  destruct (compute_metrics_inv env df m Hm)
    as (Hrows & Hcols & Hnames & Htypes & Hmv & Htm & _ & _).
  rewrite Hrows, Hcols, Hnames, Htypes, Hmv, Htm. unfold Pandas.to_dict.
  rewrite !of_items_nodup;
    [| unfold Pandas.dtypes_str; rewrite map_map; exact Hnd
     | rewrite isnull_sum_keys; exact Hnd ].
  unfold PyDict.keys. rewrite isnull_sum_keys.
  split; [reflexivity|]. split.
  { unfold Pandas.dtypes_str. rewrite map_map. reflexivity. }
  split.
  - intros label n Hin. unfold Pandas.isnull_sum in Hin.
    apply in_map_iff in Hin as (c & Hc & Hin). injection Hc as _ <-.
    rewrite Forall_forall in Hcells. pose proof (count_null_bounds c) as Hb.
    rewrite (Hcells c Hin) in Hb. exact Hb.
  - split; [apply total_null_nonneg | apply total_null_upper, Hcells].
Qed.

Lemma metrics_counts_bounded_witness :
  exists m,
    compute_metrics Demo.env_down Demo.sparse = inr m
    /\ PyDict.keys (missing_values m) = column_names m
    /\ PyDict.keys (column_types m) = column_names m
    /\ (forall label n, In (label, n) (missing_values m) ->
                        0 <= n <= total_rows m)
    /\ 0 <= total_missing m <= total_rows m * total_columns m.
Proof.
  destruct (compute_metrics_defined Demo.env_down Demo.sparse) as [mb Hm].
  eexists. split; [exact Hm|].
  exact (metrics_counts_bounded Demo.env_down Demo.sparse _ demo_sparse_wf Hm).
Defined.

(** ** Numeric and categorical columns, in general *)

(** X15.  For every table, the numeric and the categorical columns
    together are at most the columns: no column is counted twice.  They
    are all the columns exactly when every column is numeric or text; a
    column of another type (boolean, date) is in neither list. *)
Theorem numeric_categorical_count (df : DataFrame) :
  (List.length (Pandas.select_number df) + List.length (Pandas.select_object df)
   <= List.length (columns df))%nat
  /\ ((List.length (Pandas.select_number df)
       + List.length (Pandas.select_object df)
       = List.length (columns df))%nat
      <-> Forall numeric_or_text (columns df)).
Proof.
  unfold Pandas.select_number, Pandas.select_object. rewrite !length_map.
  induction (columns df) as [|c cols [IHle IHeq]]; cbn [filter List.length].
  - split; [lia|]. split; [constructor | reflexivity].
  - assert (Hc : (is_number (col_dtype c) = true /\ is_object (col_dtype c) = false)
                 \/ (is_number (col_dtype c) = false /\ is_object (col_dtype c) = true)
                 \/ (is_number (col_dtype c) = false /\ is_object (col_dtype c) = false))
      by (destruct (col_dtype c); cbn; auto).
    destruct Hc as [[Hn Ho]|[[Hn Ho]|[Hn Ho]]]; rewrite Hn, Ho;
      cbn [List.length].
    + split; [lia|]. split.
      * intros H. constructor; [now left | apply IHeq; lia].
      * intros H. apply Forall_inv_tail in H. apply IHeq in H. lia.
    + split; [lia|]. split.
      * intros H. constructor; [now right | apply IHeq; lia].
      * intros H. apply Forall_inv_tail in H. apply IHeq in H. lia.
    + split; [lia|]. split; [intros H; exfalso; lia|].
      intros H. apply Forall_inv in H. destruct H; congruence.
Qed.

(** ** The fallback and the contents of the cells *)

Lemma count_null_outline (c1 c2 : Column) :
  map cell_isnull (col_cells c1) = map cell_isnull (col_cells c2) ->
  Pandas.count_null c1 = Pandas.count_null c2.
Proof.
  unfold Pandas.count_null. intros H. f_equal.
  revert H. generalize (col_cells c2).
  induction (col_cells c1) as [|x l1 IH]; intros [|y l2] H;
    try discriminate H; [reflexivity|].
  cbn [map] in H. injection H as Hxy H. cbn [filter]. rewrite Hxy.
  destruct (cell_isnull y); cbn [List.length]; now rewrite (IH l2 H).
Qed.

Lemma same_outline_views (df1 df2 : DataFrame) :
  same_outline df1 df2 ->
  Pandas.len df1 = Pandas.len df2
  /\ Pandas.len_columns df1 = Pandas.len_columns df2
  /\ Pandas.select_number df1 = Pandas.select_number df2
  /\ Pandas.select_object df1 = Pandas.select_object df2
  /\ Pandas.isnull_sum df1 = Pandas.isnull_sum df2.
Proof.
  intros [Hrows Hcols].
  unfold Pandas.len, Pandas.len_columns, Pandas.select_number,
    Pandas.select_object, Pandas.isnull_sum.
  rewrite Hrows. split; [reflexivity|].
  induction Hcols as [|c1 c2 l1 l2 (Hn & Ht & Hc) _ IH]; [repeat split|].
  destruct IH as (Hlen & Hnum & Hobj & Hsum).
  cbn [List.length filter map]. rewrite Ht, Hn, (count_null_outline c1 c2 Hc).
  repeat split.
  - rewrite !Nat2Z.inj_succ. lia.
  - destruct (is_number (col_dtype c2)); cbn [map]; now rewrite Hnum, ?Hn.
  - destruct (is_object (col_dtype c2)); cbn [map]; now rewrite Hobj, ?Hn.
  - now rewrite Hsum.
Qed.

(** X16.  The fallback narrative does not depend on the values of the
    cells: two tables with as many rows, the same column labels and types,
    and the same cells missing, have the same narrative. *)
Theorem fallback_ignores_values (df1 df2 : DataFrame) (error_msg : string) :
  same_outline df1 df2 ->
  fallback df1 error_msg = fallback df2 error_msg.
Proof.
  intros H.
  destruct (same_outline_views df1 df2 H) as (Hlen & Hcols & Hnum & Hobj & Hsum).
  unfold fallback, missing_percent, missing_severity, total_null.
  rewrite Hlen, Hcols, Hnum, Hobj, Hsum. reflexivity.
Qed.

Lemma fallback_ignores_values_witness :
  fallback Demo.table "timeout" = fallback table_other_values "timeout".
Proof.
  apply (fallback_ignores_values Demo.table table_other_values "timeout").
  split; [reflexivity|]. repeat constructor.
Defined.

(** ** The quality part of the fallback *)

Lemma series_positive_columns (df : DataFrame) :
  Pandas.series_positive (Pandas.isnull_sum df)
  = map (fun c => (col_name c, Pandas.count_null c)) (columns_with_missing df).
Proof.
  unfold Pandas.series_positive, Pandas.isnull_sum, columns_with_missing.
  induction (columns df) as [|c cols IH]; cbn [map filter snd]; [reflexivity|].
  destruct (0 <? Pandas.count_null c); cbn [map]; now rewrite IH.
Qed.

Lemma total_null_zero_iff (df : DataFrame) :
  total_null df = 0 <-> columns_with_missing df = [].
Proof.
  unfold total_null, Pandas.series_sum, Pandas.isnull_sum, sum_Z,
    columns_with_missing.
  induction (columns df) as [|c cols IH]; cbn [map fold_right snd filter].
  - split; reflexivity.
  - pose proof (count_null_bounds c) as [Hc _].
    assert (Hrest : 0 <= fold_right Z.add 0
                           (map snd (map (fun c0 => (col_name c0, Pandas.count_null c0)) cols))).
    { clear. induction cols as [|c cols IH]; cbn [map fold_right snd]; [lia|].
      pose proof (count_null_bounds c). lia. }
    destruct (Z.ltb_spec 0 (Pandas.count_null c)) as [Hpos|Hzero].
    + split; [lia | discriminate].
    + rewrite <- IH. lia.
Qed.

(** The quality part of the narrative, given the percentage. *)
Lemma fallback_quality_eq (df : DataFrame) (error_msg : string) (percent : F64.t) :
  missing_percent df = inr percent ->
  let missing_cols :=
    Pandas.to_dict (Pandas.series_positive (Pandas.isnull_sum df)) in
  exists description insights,
    fallback df error_msg
    = inr (PDict
        [ ("dataset_description", description);
          ("key_insights", insights);
          ("data_quality", PDict
            [ ("completeness", PStr
                (if PyDict.truthy missing_cols
                 then "Missing values found in "
                      ++ PyStr.str_int (Z.of_nat (List.length missing_cols))
                      ++ " columns"
                 else "No missing values detected"));
              ("potential_issues", PList
                (if PyDict.truthy missing_cols
                 then map (fun kv => PStr (issue_line kv)) (firstn 5 missing_cols)
                 else [PStr "Data appears complete"])) ]);
          ("recommendations", PList (map PStr recommendations)) ]).
Proof.
  intros Hp. cbv zeta. unfold fallback. rewrite Hp.
  eexists _, _. reflexivity.
Qed.

(** X17.  In the fallback narrative of a table that is not empty (as
    [pd.read_csv] returns it), the quality part agrees with the count of
    missing cells.  Without a missing cell it reads [No missing values
    detected] and [Data appears complete].  Otherwise it tells the number
    of all the columns that have a missing cell, and lists the first five
    of them, in the order of the columns, each with its own count. *)
Theorem fallback_quality (df : DataFrame) (error_msg : string) :
  wf_df df ->
  Pandas.empty df = false ->
  let missing := columns_with_missing df in
  exists description insights completeness issues recs,
    fallback df error_msg
    = inr (PDict
        [ ("dataset_description", description);
          ("key_insights", insights);
          ("data_quality", PDict
            [ ("completeness", PStr completeness);
              ("potential_issues", PList (map PStr issues)) ]);
          ("recommendations", recs) ])
    /\ ((total_null df = 0
         /\ completeness = "No missing values detected"
         /\ issues = ["Data appears complete"])
        \/ (0 < total_null df
            /\ completeness
               = "Missing values found in "
                 ++ PyStr.str_int (Z.of_nat (List.length missing)) ++ " columns"
            /\ issues
               = map (fun c => col_name c ++ ": "
                               ++ PyStr.str_int (Pandas.count_null c)
                               ++ " missing")
                   (firstn 5 missing)
            /\ List.length issues = Nat.min 5 (List.length missing))).
Proof.
  intros [_ Hnd] Hne missing.
  destruct (missing_percent_defined df Hne) as [percent Hp].
  destruct (fallback_quality_eq df error_msg percent Hp)
    as (description & insights & Hfb).
  unfold Pandas.to_dict in Hfb.
  rewrite of_items_nodup in Hfb
    by (apply series_positive_labels; rewrite isnull_sum_keys; exact Hnd).
  rewrite series_positive_columns in Hfb. fold missing in Hfb.
  pose proof (total_null_zero_iff df) as Hzero. fold missing in Hzero.
  pose proof (total_null_nonneg df) as Hnn.
  assert (E : map (fun kv => PStr (issue_line kv))
                (firstn 5 (map (fun c => (col_name c, Pandas.count_null c)) missing))
              = map PStr
                  (map (fun c => col_name c ++ ": "
                                 ++ PyStr.str_int (Pandas.count_null c)
                                 ++ " missing")
                     (firstn 5 missing))).
  { rewrite firstn_map, !map_map. reflexivity. }
  rewrite E, length_map in Hfb. clear E.
  exists description, insights.
  destruct missing as [|c rest] eqn:Hmissing.
  - exists "No missing values detected", ["Data appears complete"].
    eexists. split; [exact Hfb|]. left.
    split; [now apply Hzero|]. split; reflexivity.
  - cbn [map PyDict.truthy] in Hfb. do 3 eexists. split; [exact Hfb|].
    right. split.
    + assert (total_null df <> 0) by (intros H0; apply Hzero in H0; discriminate).
      lia.
    + split; [reflexivity|]. split; [reflexivity|].
      now rewrite length_map, length_firstn.
Qed.

Lemma fallback_quality_witness :
  let missing := columns_with_missing Demo.sparse in
  exists description insights completeness issues recs,
    fallback Demo.sparse "timeout"
    = inr (PDict
        [ ("dataset_description", description);
          ("key_insights", insights);
          ("data_quality", PDict
            [ ("completeness", PStr completeness);
              ("potential_issues", PList (map PStr issues)) ]);
          ("recommendations", recs) ])
    /\ ((total_null Demo.sparse = 0
         /\ completeness = "No missing values detected"
         /\ issues = ["Data appears complete"])
        \/ (0 < total_null Demo.sparse
            /\ completeness
               = "Missing values found in "
                 ++ PyStr.str_int (Z.of_nat (List.length missing)) ++ " columns"
            /\ issues
               = map (fun c => col_name c ++ ": "
                               ++ PyStr.str_int (Pandas.count_null c)
                               ++ " missing")
                   (firstn 5 missing)
            /\ List.length issues = Nat.min 5 (List.length missing))).
Proof.
  exact (fallback_quality Demo.sparse "timeout" demo_sparse_wf eq_refl).
Defined.

(** ** Floats: rounding below an integer *)

Section RoundingBelow.
Import F64.

(** A fraction that is at most the integer [n] is rounded to a float that
    is at most [n]. *)
Lemma round_pos_upper (p q n : Z) :
  0 < p -> 0 < q -> 0 < n < 2 ^ 52 -> p <= n * q ->
  expo (round_pos p q) < 0
  /\ 0 < mant (round_pos p q) <= n * 2 ^ (- expo (round_pos p q)).
Proof.
  intros Hp Hq Hn Hle.
  pose proof (round_pos_mant_pos p q Hp Hq) as Hpos.
  pose proof (round_pos_exponent p q Hp Hq) as Hk.
  apply exponent_of_scaled in Hk; [|exact Hp|exact Hq]. cbv zeta in Hk.
  replace (expo (round_pos p q) + 52 - 52) with (expo (round_pos p q)) in Hk
    by lia.
  pose proof (round_pos_mant p q) as Hm.
  set (e := expo (round_pos p q)) in *.
  set (m := mant (round_pos p q)) in *.
  destruct Hk as [Hlo _].
  change (2 ^ 52) with 4503599627370496 in *.
  assert (He : e < 0).
  { destruct (Z_lt_ge_dec e 0) as [|Hge]; [assumption|exfalso].
    rewrite (Z.max_r 0 e), (Z.max_l 0 (- e)) in Hlo by lia.
    assert (1 <= 2 ^ e) by (apply (Z.pow_le_mono_r 2 0); lia).
    change (2 ^ 0) with 1 in Hlo. nia. }
  split; [exact He|]. split; [exact Hpos|].
  rewrite (Z.max_l 0 e), (Z.max_r 0 (- e)) in Hm by lia.
  change (2 ^ 0) with 1 in Hm. rewrite Z.mul_1_r in Hm.
  set (E := 2 ^ (- e)) in *.
  assert (HE : 0 < E) by (apply Z.pow_pos_nonneg; lia).
  destruct (round_half_even_near (p * E) q Hq) as [Hup _].
  rewrite <- Hm in Hup.
  destruct (Z_le_gt_dec m (n * E)) as [|Hgt]; [assumption|exfalso].
  assert (H1 : 2 * ((n * E + 1) * q) <= 2 * (p * E) + q) by nia.
  assert (H2 : p * E <= n * q * E) by nia.
  nia.
Qed.

(** The fraction of a float with a negative exponent. *)
Lemma to_frac_negative (x : t) :
  expo x < 0 -> to_frac x = (mant x, 2 ^ (- expo x)).
Proof.
  intros He. unfold to_frac.
  destruct (Z.leb_spec 0 (expo x)); [lia | reflexivity].
Qed.

(** [t / c * 100] on floats is between 0 and 100 when [0 <= t <= c]. *)
Lemma percent_of_counts (t c : Z) :
  0 <= t <= c -> 0 < c < 2 ^ 53 ->
  exists q,
    div (of_int t) (of_int c) = Some q
    /\ float_between 0 100 (mul q (of_int 100)).
Proof.
  intros Ht Hc.
  destruct (of_int_frac c Hc) as (b & Hb & Ec).
  destruct (Z.eq_dec t 0) as [->|Ht0].
  - exists (mk 0 0). split.
    + unfold div. change (to_frac (of_int 0)) with (0, 1). rewrite Ec.
      destruct (Z.eqb_spec (c * b) 0); [nia|].
      destruct (Z.ltb_spec (c * b) 0); [nia|].
      rewrite Z.mul_0_l. reflexivity.
    + unfold float_between. change (mul (mk 0 0) (of_int 100)) with (mk 0 0).
      change (to_frac (mk 0 0)) with (0, 1). cbv beta iota. lia.
  - destruct (of_int_frac t ltac:(lia)) as (b' & Hb' & Et).
    unfold div. rewrite Et, Ec.
    destruct (Z.eqb_spec (c * b) 0); [nia|].
    destruct (Z.ltb_spec (c * b) 0); [nia|].
    eexists. split; [reflexivity|].
    unfold round.
    set (P := t * b' * b). set (Q := b' * (c * b)).
    assert (HP : 0 < P) by (unfold P; nia).
    assert (HQ : 0 < Q) by (unfold Q; nia).
    destruct (Z.eqb_spec P 0); [lia|].
    destruct (Z.ltb_spec P 0); [lia|].
    destruct (round_pos_upper P Q 1 HP HQ ltac:(split; reflexivity))
      as (He & Hm0 & Hm); [unfold P, Q; nia|].
    set (q := round_pos P Q) in *.
    unfold mul. rewrite (to_frac_negative q He).
    destruct (of_int_frac 100 ltac:(split; reflexivity)) as (b1 & Hb1 & E100).
    rewrite E100. unfold round.
    set (E := 2 ^ (- expo q)) in *.
    assert (HE : 0 < E) by (apply Z.pow_pos_nonneg; lia).
    set (P2 := mant q * (100 * b1)). set (Q2 := E * b1).
    assert (HP2 : 0 < P2) by (unfold P2; nia).
    assert (HQ2 : 0 < Q2) by (unfold Q2; nia).
    destruct (Z.eqb_spec P2 0); [lia|].
    destruct (Z.ltb_spec P2 0); [lia|].
    destruct (round_pos_upper P2 Q2 100 HP2 HQ2 ltac:(split; reflexivity))
      as (He2 & Hm20 & Hm2); [unfold P2, Q2; nia|].
    unfold float_between. rewrite (to_frac_negative _ He2). cbv beta iota.
    assert (0 < 2 ^ (- expo (round_pos P2 Q2)))
      by (apply Z.pow_pos_nonneg; lia).
    lia.
Qed.

(** The hundredths that [format_2f] writes. *)
Lemma format_2f_hundredths (x : t) :
  float_between 0 100 x ->
  exists h, 0 <= h <= 10000
            /\ format_2f x = PyStr.str_nat (h / 100) ++ "." ++ pad2 (h mod 100).
Proof.
  unfold float_between, format_2f. destruct (to_frac x) as [a d].
  cbv beta iota. intros (Hd & Hlo & Hhi).
  exists (round_half_even (a * 100) d). split; [|reflexivity].
  destruct (round_half_even_near (a * 100) d Hd) as [Hup Hdown].
  split; nia.
Qed.

End RoundingBelow.

(** X18.  The percentage of missing cells that the fallback reports lies
    between 0 and 100, and is written as a number of hundredths between
    [0.00] and [100.00], for a table (as [pd.read_csv] returns it) of
    fewer than [2^53] cells. *)
Theorem missing_percent_bounded (df : DataFrame) (percent : F64.t) :
  wf_df df ->
  Pandas.len df * Pandas.len_columns df < 2 ^ 53 ->
  missing_percent df = inr percent ->
  float_between 0 100 percent
  /\ exists h, 0 <= h <= 10000
               /\ F64.format_2f percent
                  = PyStr.str_nat (h / 100) ++ "." ++ F64.pad2 (h mod 100).
Proof.
  intros [Hcells _] Hlt Hp.
  assert (Hcount : 0 <= total_null df <= Pandas.len df * Pandas.len_columns df)
    by (split; [apply total_null_nonneg | apply total_null_upper, Hcells]).
  assert (Hpos : 0 < Pandas.len df * Pandas.len_columns df).
  { destruct (Z.eq_dec (Pandas.len df * Pandas.len_columns df) 0) as [E|];
      [|lia].
    unfold missing_percent, truediv, F64.div in Hp. rewrite E in Hp.
    change (F64.to_frac (F64.of_int 0)) with (0, 1) in Hp.
    destruct (F64.to_frac (F64.of_int (total_null df))).
    discriminate Hp. }
  destruct (percent_of_counts _ _ Hcount (conj Hpos Hlt)) as (q & Hq & Hb).
  unfold missing_percent, truediv in Hp. rewrite Hq in Hp.
  injection Hp as <-. split; [exact Hb|].
  exact (format_2f_hundredths _ Hb).
Qed.

Lemma missing_percent_bounded_witness :
  exists percent,
    missing_percent Demo.sparse = inr percent
    /\ float_between 0 100 percent
    /\ exists h, 0 <= h <= 10000
                 /\ F64.format_2f percent
                    = PyStr.str_nat (h / 100) ++ "." ++ F64.pad2 (h mod 100).
Proof.
  destruct (missing_percent_defined Demo.sparse eq_refl) as [percent Hp].
  exists percent. split; [exact Hp|].
  exact (missing_percent_bounded Demo.sparse percent demo_sparse_wf eq_refl Hp).
Defined.

Lemma missing_severity_rows_witness :
  missing_severity Demo.sparse
  = if 20 * total_null Demo.sparse <? Pandas.len Demo.sparse
    then "minimal" else "significant".
Proof. exact (missing_severity_rows Demo.sparse eq_refl eq_refl). Defined.
